(** * Verification of the meeting-transcriber pipeline

    Shallow embedding of the parts of the repository that decide the
    transcript-assembly behaviour: the text-import parser
    (tami/backend/app/services/transcript_parser.py), the refinement service
    (tami/backend/app/services/refinement.py), the Whisper and Ivrit providers
    (src/transcription/), the routing of the transcription service, the
    round-robin speaker labeler, the summarizer's JSON fallback and the
    entity de-duplication.

    Python strings are modelled as [String.string]: a sequence of code points
    below 256 (Latin-1), on which [str.isspace], [str.lower], [\s] and [\d]
    are written out exactly. *)

From Stdlib Require Import String Ascii List ZArith QArith Qround Lia Bool.
Set Warnings "-register-all".
Import ListNotations.
Open Scope string_scope.

(* ------------------------------------------------------------------ *)
(** ** Python string primitives *)
Module Py.
Local Open Scope nat_scope.

(** [str.isspace] restricted to code points below 256: \t \n \v \f \r,
    \x1c-\x1f, space, \x85 and \xa0.  Python's [re] [\s] on str patterns
    uses the same predicate. *)
Definition isspace (c : ascii) : bool :=
  let n := nat_of_ascii c in
  ((9 <=? n) && (n <=? 13)) || ((28 <=? n) && (n <=? 32))
  || (n =? 133) || (n =? 160).

(** [\d] below 256: only the ASCII digits are decimal digits there. *)
Definition isdigit (c : ascii) : bool :=
  let n := nat_of_ascii c in (48 <=? n) && (n <=? 57).

Fixpoint lstrip (s : string) : string :=
  match s with
  | EmptyString => EmptyString
  | String c r => if isspace c then lstrip r else s
  end.

Definition rstrip (s : string) : string :=
  string_of_list_ascii (rev (list_ascii_of_string (lstrip
    (string_of_list_ascii (rev (list_ascii_of_string s)))))).

(** [str.strip()] *)
Definition strip (s : string) : string := rstrip (lstrip s).

(** [str.lower()] on Latin-1: A-Z and \xc0-\xde except \xd7. *)
Definition lower_char (c : ascii) : ascii :=
  let n := nat_of_ascii c in
  if ((65 <=? n) && (n <=? 90)) || ((192 <=? n) && (n <=? 222) && negb (n =? 215))
  then ascii_of_nat (n + 32) else c.

Fixpoint lower (s : string) : string :=
  match s with
  | EmptyString => EmptyString
  | String c r => String (lower_char c) (lower r)
  end.

(** [sub in s] *)
Fixpoint contains (sub s : string) : bool :=
  if String.prefix sub s then true
  else match s with
       | EmptyString => false
       | String _ r => contains sub r
       end.

(** [s.split(sep)] for a non-empty separator: the pieces between the
    non-overlapping occurrences of [sep], scanned left to right. *)
Fixpoint split_go (fuel : nat) (sep s cur : string) : list string :=
  match fuel with
  | O => [cur ++ s]
  | S f =>
      match s with
      | EmptyString => [cur]
      | String c r =>
          if String.prefix sep s
          then cur :: split_go f sep (substring (String.length sep)
                                        (String.length s) s) EmptyString
          else split_go f sep r (cur ++ String c EmptyString)
      end
  end.

Definition split (s sep : string) : list string :=
  split_go (S (String.length s)) sep s EmptyString.

(** [sep.join(xs)] *)
Fixpoint join (sep : string) (xs : list string) : string :=
  match xs with
  | [] => EmptyString
  | [x] => x
  | x :: r => x ++ sep ++ join sep r
  end.

(** Greedy [\d+] at the start: the digit run and the rest. *)
Fixpoint digits (s : string) : string * string :=
  match s with
  | String c r =>
      if isdigit c then let (d, rest) := digits r in (String c d, rest)
      else (EmptyString, s)
  | EmptyString => (EmptyString, EmptyString)
  end.

Fixpoint skip_spaces (s : string) : string :=
  match s with
  | String c r => if isspace c then skip_spaces r else s
  | EmptyString => EmptyString
  end.

(** [int(d)] for a string of ASCII digits. *)
Fixpoint int_go (acc : Z) (s : string) : Z :=
  match s with
  | EmptyString => acc
  | String c r => int_go (10 * acc + Z.of_nat (nat_of_ascii c - 48))%Z r
  end.
Definition int (s : string) : Z := int_go 0%Z s.

(** [f"{n}"] for a natural number. *)
Fixpoint show_nat_go (fuel n : nat) (acc : string) : string :=
  match fuel with
  | O => acc
  | S f =>
      let acc' := String (ascii_of_nat (48 + n mod 10)) acc in
      if n <? 10 then acc' else show_nat_go f (n / 10) acc'
  end.
Definition show_nat (n : nat) : string := show_nat_go (S n) n EmptyString.

End Py.

(** The ASCII newline as a one-character string. *)
Definition NL : string := String (ascii_of_nat 10) EmptyString.

(** Outcome of a Python call that may raise: the value or the exception. *)
Inductive result (A : Type) : Type :=
| Ok (a : A)
| Err (msg : string).
Arguments Ok {A} a.
Arguments Err {A} msg.

(* ------------------------------------------------------------------ *)
(** ** Text-import parser (app/services/transcript_parser.py) *)
Module TranscriptParser.

(** The parser's own [TranscriptSegment] dataclass.  Every time it computes
    is an integer number of seconds ([float(minutes * 60 + seconds)], plus
    1.0 or 5.0), modelled as an exact [Z].  Python's floats agree with it
    while the times stay at most 2^53: above that [float()] and the
    additions round, and [float()] of an int beyond the float range raises
    [OverflowError]. *)
Record TranscriptSegment := mkSegment {
  speaker : string;
  text : string;
  start_time : Z;
  end_time : Z
}.

Record TranscriptResult := mkResult {
  segments : list TranscriptSegment;
  language : string;
  duration : Z;          (* metadata["duration"] *)
  source : string        (* metadata["source"] *)
}.

(** [re.match(r'Speaker\s+(\d+)', line, re.IGNORECASE)]: [Some group(1)]. *)
Definition speaker_match (line : string) : option string :=
  if String.eqb (Py.lower (substring 0 7 line)) "speaker" then
    match substring 7 (String.length line) line with
    | String c r =>
        if Py.isspace c then
          let (d, _) := Py.digits (Py.skip_spaces r) in
          if String.eqb d "" then None else Some d
        else None
    | EmptyString => None
    end
  else None.

(** [re.match(r'(\d+):(\d+)', line)]: [Some (group(1), group(2))]. *)
Definition timestamp_match (line : string) : option (string * string) :=
  let (m, rest) := Py.digits line in
  if String.eqb m "" then None else
  match rest with
  | String c r =>
      if Ascii.eqb c ":"%char then
        let (sec, _) := Py.digits r in
        if String.eqb sec "" then None else Some (m, sec)
      else None
  | EmptyString => None
  end.

(** The inner [for line_idx, line in enumerate(lines)] loop: the state is
    [(speaker, timestamp, text_lines)]. *)
Fixpoint scan_lines (lines : list string) (speaker : option string)
    (timestamp : option Z) (text_lines : list string)
    : option string * option Z * list string :=
  match lines with
  | [] => (speaker, timestamp, text_lines)
  | line0 :: rest =>
      let line := Py.strip line0 in
      if String.eqb line "" then scan_lines rest speaker timestamp text_lines
      else
        match speaker_match line, speaker with
        | Some num, None =>
            scan_lines rest (Some ("speaker_" ++ num)) timestamp text_lines
        | _, _ =>
            match timestamp_match line, timestamp with
            | Some (mi, se), None =>
                scan_lines rest speaker
                  (Some (Py.int mi * 60 + Py.int se)%Z) text_lines
            | _, _ => scan_lines rest speaker timestamp (text_lines ++ [line])
            end
        end
  end.

(** One iteration of the outer [for idx, part in enumerate(parts)] loop, at
    an index [idx >= 1]. *)
Definition process_part (idx : nat) (part : string)
    (segments : list TranscriptSegment) : list TranscriptSegment :=
  if String.eqb (Py.strip part) "" then segments
  else
    let lines := Py.split (Py.strip part) NL in
    match scan_lines lines None None [] with
    | (_, _, []) => segments
    | (sp, ts, text_lines) =>
        let speaker := match sp with
                       | Some s => s
                       | None => "speaker_" ++ Py.show_nat (idx mod 2 + 1)
                       end in
        let timestamp := match ts with
                         | Some t => t
                         | None => match rev segments with
                                   | l :: _ => (end_time l + 1)%Z
                                   | [] => 0%Z
                                   end
                         end in
        segments ++ [mkSegment speaker (Py.join " " text_lines)
                       timestamp (timestamp + 5)%Z]
    end.

Fixpoint process_from (idx : nat) (parts : list string)
    (segments : list TranscriptSegment) : list TranscriptSegment :=
  match parts with
  | [] => segments
  | part :: rest => process_from (S idx) rest (process_part idx part segments)
  end.

(** The outer loop.  At index 0 a non-blank part never yields a segment: it
    is written in front of [parts[1]] ([parts[1] = part.strip() + '\n' +
    parts[1]]), and Python's lazy [enumerate] then reads the updated
    [parts[1]] at index 1. *)
Definition process_parts (parts : list string) : list TranscriptSegment :=
  match parts with
  | p0 :: p1 :: rest =>
      let p1' := if String.eqb (Py.strip p0) "" then p1
                 else Py.strip p0 ++ NL ++ p1 in
      process_from 1 (p1' :: rest) []
  | _ => []
  end.

(** [for i in range(len(segments) - 1): segments[i].end_time =
    segments[i + 1].start_time]. *)
Fixpoint link_end_times (segs : list TranscriptSegment) : list TranscriptSegment :=
  match segs with
  | a :: ((b :: _) as r) =>
      mkSegment (speaker a) (text a) (start_time a) (start_time b) :: link_end_times r
  | _ => segs
  end.

(** [segments[-1].end_time = segments[-1].start_time + 5.0] *)
Fixpoint set_last_end (segs : list TranscriptSegment) : list TranscriptSegment :=
  match segs with
  | [] => []
  | [a] => [mkSegment (speaker a) (text a) (start_time a) (start_time a + 5)%Z]
  | a :: r => a :: set_last_end r
  end.

(** The validation loop: [end_time <= start_time] is reset to [start + 5]. *)
Definition validate_segment (s : TranscriptSegment) : TranscriptSegment :=
  if (end_time s <=? start_time s)%Z
  then mkSegment (speaker s) (text s) (start_time s) (start_time s + 5)%Z
  else s.

Definition fix_times (segs : list TranscriptSegment) : list TranscriptSegment :=
  map validate_segment (set_last_end (link_end_times segs)).

Definition S_DELIM : string := NL ++ "S" ++ NL.

(** [parse_text_file], on the decoded file content.  Every error is
    re-raised as [ValueError("Failed to parse transcript file: ...")]. *)
Definition parse_text_file (content : string) : result TranscriptResult :=
  let fail msg := Err ("Failed to parse transcript file: " ++ msg) in
  if String.eqb (Py.strip content) "" then fail "Transcript file is empty"
  else
    let parts := Py.split content S_DELIM in
    if Nat.ltb (length parts) 2 then
      fail "Invalid transcript format: Expected segments separated by 'S' delimiter"
    else
      match process_parts parts with
      | [] => fail "No valid segments found in transcript file"
      | segs =>
          let segs' := fix_times segs in
          let total := match rev segs' with l :: _ => end_time l | [] => 0%Z end in
          Ok (mkResult segs' "he" total "text_import")
      end.

(** The text-import file of the spec's round-trip scenario. *)
Definition sample_import : string :=
  "S" ++ NL ++ "Speaker 1" ++ NL ++ "00:05" ++ NL ++ "Hello" ++ NL ++
  "S" ++ NL ++ "Speaker 2" ++ NL ++ "00:10" ++ NL ++ "World".

End TranscriptParser.

(* ------------------------------------------------------------------ *)
(** ** Python exceptions (lib/utils/exceptions.py and builtins) *)

(** The exception classes the claims distinguish, each with [str(e)]. *)
Inductive exn_kind :=
| Exception            (* any other exception raised by a library *)
| FileNotFoundError
| ValueError
| TranscriberError
| AudioFileError
| APIError
| APIAuthenticationError
| APIRateLimitError
| APINetworkError
| ConfigurationError.

Record exn := mkExn { kind : exn_kind; message : string }.

(** [isinstance(e, C)] along the hierarchy of lib/utils/exceptions.py. *)
Definition is_instance (k c : exn_kind) : bool :=
  match c, k with
  | Exception, _ => true
  | FileNotFoundError, FileNotFoundError => true
  | ValueError, ValueError => true
  | TranscriberError, (TranscriberError | AudioFileError | APIError
                       | APIAuthenticationError | APIRateLimitError
                       | APINetworkError | ConfigurationError) => true
  | AudioFileError, AudioFileError => true
  | APIError, (APIError | APIAuthenticationError | APIRateLimitError
               | APINetworkError) => true
  | APIAuthenticationError, APIAuthenticationError => true
  | APIRateLimitError, APIRateLimitError => true
  | APINetworkError, APINetworkError => true
  | ConfigurationError, ConfigurationError => true
  | _, _ => false
  end.

(** A Python call that returns a value or raises. *)
Inductive outcome (A : Type) : Type :=
| Ret (a : A)
| Raise (e : exn).
Arguments Ret {A} a.
Arguments Raise {A} e.

(* ------------------------------------------------------------------ *)
(** ** Data models (lib/utils/models.py) *)
Module Models.

(** Float times of the provider pipeline, modelled as rationals. *)
Record TranscriptSegment := mkSegment {
  speaker : string;
  text : string;
  start_time : Q;
  end_time : Q
}.

Record TranscriptResult := mkResult {
  segments : list TranscriptSegment;
  language : string;
  metadata : list (string * string)
}.

End Models.

(* ------------------------------------------------------------------ *)
(** ** Transcript refinement (app/services/refinement.py) *)
Module Refinement.
Import Models.

(** [re.match(r'^([^:]+):\s*(.+)$', line)] on a line without '\n':
    [Some (group(1), group(2))]. *)
Fixpoint split_at_colon (s : string) : string * option string :=
  match s with
  | EmptyString => (EmptyString, None)
  | String c r =>
      if Ascii.eqb c ":"%char then (EmptyString, Some r)
      else let (h, t) := split_at_colon r in (String c h, t)
  end.

Definition last_char (s : string) : string :=
  substring (String.length s - 1) 1 s.

Definition line_match (line : string) : option (string * string) :=
  match split_at_colon line with
  | (EmptyString, _) | (_, None) => None
  | (g1, Some rest) =>
      if String.eqb rest "" then None
      else
        (* [\s*] is greedy but gives back one character so that [.+]
           is not empty *)
        let t := Py.skip_spaces rest in
        Some (g1, if String.eqb t "" then last_char rest else t)
  end.

(** [_parse_refined_transcript(refined_text, original_segments)] *)
Definition total_duration (original : list TranscriptSegment) : Q :=
  match rev original with
  | l :: _ => end_time l
  | [] => 0
  end.

Fixpoint parse_lines (lines : list string) (idx : nat) (n : nat)
    (total : Q) : list TranscriptSegment :=
  match lines with
  | [] => []
  | line0 :: rest =>
      let line := Py.strip line0 in
      if String.eqb line "" then parse_lines rest (S idx) n total
      else
        match line_match line with
        | Some (g1, g2) =>
            let segment_duration := total / inject_Z (Z.of_nat n) in
            let start := inject_Z (Z.of_nat idx) * segment_duration in
            let stop := inject_Z (Z.of_nat (S idx)) * segment_duration in
            mkSegment (Py.strip g1) (Py.strip g2) start stop
              :: parse_lines rest (S idx) n total
        | None => parse_lines rest (S idx) n total
        end
  end.

(** The segments matched by the [for idx, line in enumerate(lines)] loop. *)
Definition parsed_lines (refined_text : string)
    (original_segments : list TranscriptSegment) : list TranscriptSegment :=
  let lines := Py.split (Py.strip refined_text) NL in
  parse_lines lines 0 (Nat.max (length lines) 1) (total_duration original_segments).

Definition parse_refined_transcript (refined_text : string)
    (original_segments : list TranscriptSegment) : list TranscriptSegment :=
  match parsed_lines refined_text original_segments with
  | [] => original_segments
  | refined => refined
  end.

(** [_format_transcript_for_refinement] *)
Definition format_transcript (t : TranscriptResult) : string :=
  Py.join NL (map (fun s => speaker s ++ ": " ++ text s) (segments t)).

Section Refine.

(** The chat-completion request of [_refine_full_transcript], from the
    formatted transcript and the context to [response.choices[0].message
    .content] ([None] for a null content), or the exception it raises. *)
Variable chat_completion : string -> string -> outcome (option string).

(** [_refine_full_transcript]: [content.strip()]; a null content raises
    [AttributeError] on [.strip()]. *)
Definition refine_full_transcript (transcript_text context : string)
    : outcome string :=
  match chat_completion transcript_text context with
  | Ret (Some content) => Ret (Py.strip content)
  | Ret None => Raise (mkExn Exception "'NoneType' object has no attribute 'strip'")
  | Raise e => Raise e
  end.

(** The body of the [try] block of [refine_transcript]. *)
Definition refine_try (transcript : TranscriptResult) (context : string)
    : outcome TranscriptResult :=
  match refine_full_transcript (format_transcript transcript) context with
  | Ret refined_text =>
      Ret (mkResult (parse_refined_transcript refined_text (segments transcript))
             (language transcript) (metadata transcript))
  | Raise e => Raise e
  end.

(** [refine_transcript]: the blank-context early return, then the [try]
    whose [except Exception] returns the original transcript. *)
Definition refine_transcript (transcript : TranscriptResult) (context : string)
    : outcome TranscriptResult :=
  if String.eqb (Py.strip context) "" then Ret transcript
  else
    match refine_try transcript context with
    | Ret r => Ret r
    | Raise _ => Ret transcript
    end.

End Refine.
End Refinement.

(* ------------------------------------------------------------------ *)
(** ** Retrying with tenacity

    [@retry(stop=stop_after_attempt(max_attempts), wait=wait_exponential(
    multiplier, min, max), retry=retry_if_exception_type(cls),
    reraise=True)], as tenacity runs it: after a failed attempt the retry
    predicate is checked, then the stop condition, then the wait before the
    next attempt. *)
Module Tenacity.

(** [wait_exponential.__call__]: [max(max(0, min), min(multiplier *
    2 ** (attempt_number - 1), max))]. *)
Definition wait_exponential (multiplier wmin wmax : Z) (attempt_number : nat) : Z :=
  Z.max (Z.max 0 wmin)
        (Z.min (multiplier * 2 ^ Z.of_nat (attempt_number - 1)) wmax).

(** What a decorated call does: its final outcome, the number of attempts
    made and the sleeps taken between them. *)
Record trace (A : Type) := mkTrace {
  final : outcome A;
  attempts : nat;
  sleeps : list Z
}.
Arguments mkTrace {A}.
Arguments final {A}.
Arguments attempts {A}.
Arguments sleeps {A}.

Section Retrying.
Context {A : Type}.
Variable max_attempts : nat.
Variable wait : nat -> Z.
Variable retry_on : exn_kind.
(** The [n]-th attempt of the wrapped function ([n] from 1). *)
Variable attempt : nat -> outcome A.

Fixpoint retrying_go (fuel attempt_number : nat) : trace A :=
  match fuel with
  | O => mkTrace (attempt attempt_number) attempt_number []  (* not reached *)
  | S fuel' =>
      match attempt attempt_number with
      | Ret a => mkTrace (Ret a) attempt_number []
      | Raise e =>
          if negb (is_instance (kind e) retry_on) then
            mkTrace (Raise e) attempt_number []
          else if Nat.leb max_attempts attempt_number then
            (* stop_after_attempt, reraise=True: the last exception *)
            mkTrace (Raise e) attempt_number []
          else
            let t := retrying_go fuel' (S attempt_number) in
            mkTrace (final t) (attempts t) (wait attempt_number :: sleeps t)
      end
  end.

Definition retrying : trace A := retrying_go max_attempts 1.

End Retrying.
End Tenacity.

(* ------------------------------------------------------------------ *)
(** ** Whisper provider (src/transcription/whisper.py) *)
Module Whisper.
Import Models.

(** The fields of the [verbose_json] response the provider reads. *)
Record Response := mkResponse {
  resp_text : string;
  resp_language : option string   (* [None]: no [language] attribute *)
}.

(** [_handle_api_error]: classification by the lower-cased [str(error)]. *)
Definition handle_api_error (error : exn) : exn :=
  let error_str := Py.lower (message error) in
  if Py.contains "authentication" error_str || Py.contains "api key" error_str
     || Py.contains "unauthorized" error_str then
    mkExn APIAuthenticationError ("OpenAI API authentication failed: " ++ message error)
  else if Py.contains "rate limit" error_str || Py.contains "quota" error_str then
    mkExn APIRateLimitError ("OpenAI API rate limit exceeded: " ++ message error)
  else if Py.contains "timeout" error_str || Py.contains "connection" error_str then
    mkExn APINetworkError ("Network error calling OpenAI API: " ++ message error)
  else mkExn APIError ("OpenAI API error: " ++ message error).

(** [str(FileNotFoundError)] raised by [open(path, 'rb')]. *)
Definition file_not_found (audio_path : string) : exn :=
  mkExn FileNotFoundError
    ("[Errno 2] No such file or directory: '" ++ audio_path ++ "'").

Section Provider.
Variable model : string.
(** The file system: whether [open(audio_path, 'rb')] finds the file. *)
Variable file_exists : string -> bool.
(** [client.audio.transcriptions.create(...)] at the [n]-th call. *)
Variable transcriptions_create : nat -> outcome Response.

(** One attempt of [_transcribe_with_retry]: every exception of the [try]
    is re-raised as [self._handle_api_error(e)]. *)
Definition transcribe_attempt (audio_path : string) (n : nat) : outcome Response :=
  if file_exists audio_path then
    match transcriptions_create n with
    | Ret r => Ret r
    | Raise e => Raise (handle_api_error e)
    end
  else Raise (handle_api_error (file_not_found audio_path)).

(** [_transcribe_with_retry] with its tenacity decorator. *)
Definition transcribe_with_retry (audio_path : string) : Tenacity.trace Response :=
  Tenacity.retrying 3 (Tenacity.wait_exponential 1 4 10) APINetworkError
    (transcribe_attempt audio_path).

(** [WhisperTranscriber.transcribe] *)
Definition transcribe (audio_path : string) : outcome TranscriptResult :=
  match Tenacity.final (transcribe_with_retry audio_path) with
  | Ret transcript =>
      Ret (mkResult [mkSegment "Unknown" (resp_text transcript) 0 0]
             (match resp_language transcript with Some l => l | None => "unknown" end)
             [("model", model); ("provider", "whisper")])
  | Raise e => Raise (handle_api_error e)
  end.

End Provider.
End Whisper.

(* ------------------------------------------------------------------ *)
(** ** Ivrit provider (src/transcription/ivrit.py) *)
Module Ivrit.
Import Models.

(** A segment object of the ivrit result: [.speakers], [.text], [.start],
    [.end]. *)
Record IvritSegment := mkIvritSegment {
  seg_speakers : list string;
  seg_text : string;
  seg_start : Q;
  seg_end : Q
}.

Record IvritResult := mkIvritResult {
  res_segments : list IvritSegment;
  res_language : option string
}.

Definition ivrit_error (e : exn) : exn :=
  let s := Py.lower (message e) in
  if Py.contains "authentication" s || Py.contains "api key" s then
    mkExn APIAuthenticationError ("Ivrit API authentication failed: " ++ message e)
  else mkExn APIError ("Ivrit transcription failed: " ++ message e).

Definition convert_segment (seg : IvritSegment) : TranscriptSegment :=
  mkSegment (match seg_speakers seg with s :: _ => s | [] => "Unknown" end)
    (Py.strip (seg_text seg)) (seg_start seg) (seg_end seg).

Section Provider.
Variable model language : string.
Variable file_exists : string -> bool.
(** [_initialize_model]: [ivrit.load_model(...)] succeeds or raises. *)
Variable load_model : outcome unit.
(** [self.ivrit_model.transcribe(path=..., ...)] *)
Variable model_transcribe : string -> outcome IvritResult.

(** [IvritTranscriber.transcribe] *)
Definition transcribe (audio_path : string) : outcome TranscriptResult :=
  if negb (file_exists audio_path) then
    Raise (mkExn ValueError ("Audio file not found: " ++ audio_path))
  else
    match load_model with
    | Raise e =>
        let s := Py.lower (message e) in
        if Py.contains "authentication" s || Py.contains "api key" s then
          Raise (mkExn APIAuthenticationError ("Ivrit authentication failed: " ++ message e))
        else Raise (mkExn ConfigurationError ("Failed to initialize Ivrit model: " ++ message e))
    | Ret _ =>
        match model_transcribe audio_path with
        | Raise e => Raise (ivrit_error e)
        | Ret result =>
            Ret (mkResult (map convert_segment (res_segments result))
                   (match res_language result with Some l => l | None => language end)
                   [("model", model); ("provider", "ivrit"); ("engine", "runpod");
                    ("diarization", "True")])
        end
    end.

End Provider.
End Ivrit.

(* ------------------------------------------------------------------ *)
(** ** Provider routing (app/services/transcription.py) *)
Module Routing.

(** [LANGUAGE_PROVIDER_MAP] *)
Definition LANGUAGE_PROVIDER_MAP : list (string * string) :=
  [("he", "ivrit"); ("en", "whisper")].

Fixpoint assoc_get (k : string) (m : list (string * string)) : option string :=
  match m with
  | [] => None
  | (k', v) :: r => if String.eqb k k' then Some v else assoc_get k r
  end.

(** [get_provider_for_language] *)
Definition get_provider_for_language (language : string) : string :=
  match assoc_get language LANGUAGE_PROVIDER_MAP with
  | Some p => p
  | None => "whisper"
  end.

(** [get_model_for_provider] *)
Definition get_model_for_provider (provider : string) : string :=
  if String.eqb provider "ivrit" then "ivrit-ai/whisper-large-v3-turbo-ct2"
  else "whisper-1".

(** Python truthiness of an [Optional[str]]. *)
Definition truthy (s : option string) : bool :=
  match s with
  | Some v => negb (String.eqb v "")
  | None => false
  end.

(** What step 3 of [transcribe_with_auto_routing] hands to
    [transcribe_audio]. *)
Record Route := mkRoute {
  provider : string;
  model : string;
  api_key : string;
  endpoint_id : option string
}.

(** Steps 2 and 3 of [transcribe_with_auto_routing], from the detected
    language. *)
Definition route (language openai_api_key : string)
    (ivrit_api_key ivrit_endpoint_id : option string) : Route :=
  let provider := get_provider_for_language language in
  let model := get_model_for_provider provider in
  if String.eqb provider "ivrit" && truthy ivrit_api_key && truthy ivrit_endpoint_id then
    mkRoute provider model
      (match ivrit_api_key with Some k => k | None => "" end) ivrit_endpoint_id
  else
    let '(provider, model) :=
      if String.eqb provider "ivrit"
         && (negb (truthy ivrit_api_key) || negb (truthy ivrit_endpoint_id))
      then ("whisper", "whisper-1") else (provider, model) in
    mkRoute provider model openai_api_key None.

End Routing.

(* ------------------------------------------------------------------ *)
(** ** Round-robin speaker labeling (src/diarization/speaker_labeler.py) *)
Module SpeakerLabeler.
Import Models.

Definition speaker_name (participants : list string) (idx : nat) : string :=
  match participants with
  | [] => "Speaker " ++ Py.show_nat (idx mod 3 + 1)
  | p :: _ => nth (idx mod length participants) participants p
  end.

Fixpoint label_from (participants : list string) (idx : nat)
    (segs : list TranscriptSegment) : list TranscriptSegment :=
  match segs with
  | [] => []
  | s :: r =>
      mkSegment (speaker_name participants idx) (text s) (start_time s) (end_time s)
        :: label_from participants (S idx) r
  end.

(** [SpeakerLabeler(participants).label_speakers(transcript)] *)
Definition label_speakers (participants : list string) (t : TranscriptResult)
    : TranscriptResult :=
  mkResult (label_from participants 0 (segments t)) (language t) (metadata t).

End SpeakerLabeler.

(* ------------------------------------------------------------------ *)
(** ** Summarizer (lib/summarization/summarizer.py) *)
Module Summarizer.
Import Models.

(** A value produced by [json.loads]. *)
Inductive json :=
| JNull
| JBool (b : bool)
| JNum (q : Q)
| JStr (s : string)
| JArr (xs : list json)
| JObj (kvs : list (string * json)).

(** [d.get(key, default)] on a dict built by [json.loads]: the last
    binding of a repeated key wins.  [None] when [d] is not a dict
    ([AttributeError]). *)
Definition get (d : json) (key : string) (default : json) : option json :=
  match d with
  | JObj kvs =>
      Some (match find (fun kv => String.eqb (fst kv) key) (rev kvs) with
            | Some (_, v) => v
            | None => default
            end)
  | _ => None
  end.

(** [for item in v]: a list yields its items, a dict its keys, a string its
    characters; other values raise [TypeError]. *)
Definition iter (v : json) : option (list json) :=
  match v with
  | JArr xs => Some xs
  | JObj kvs => Some (map (fun kv => JStr (fst kv)) kvs)
  | JStr s => Some (map (fun c => JStr (String c EmptyString)) (list_ascii_of_string s))
  | _ => None
  end.

(** [len(v)] succeeds on lists, dicts and strings. *)
Definition has_len (v : json) : bool :=
  match v with JArr _ | JObj _ | JStr _ => true | _ => false end.

Record ActionItem := mkActionItem {
  description : json;
  assignee : json;
  deadline : json
}.

(** The [Summary] dataclass; its fields hold whatever the JSON reply
    supplied (no validation). *)
Record Summary := mkSummary {
  overview : json;
  key_points : json;
  action_items : list ActionItem;
  participants : list string
}.

Fixpoint action_items_of (items : list json) : option (list ActionItem) :=
  match items with
  | [] => Some []
  | item :: r =>
      match get item "description" (JStr ""), get item "assignee" JNull,
            get item "deadline" JNull, action_items_of r with
      | Some d, Some a, Some dl, Some rest => Some (mkActionItem d a dl :: rest)
      | _, _, _, _ => None
      end
  end.

(** [_format_time]: [f"{int(seconds // 60):02d}:{int(seconds % 60):02d}"]
    for a positive time. *)
Definition pad2 (n : Z) : string :=
  let s := Py.show_nat (Z.to_nat n) in
  if (n <? 10)%Z then "0" ++ s else s.

Definition format_time (seconds : Q) : string :=
  let minutes := Qfloor (seconds / 60) in
  let secs := Qfloor (seconds - inject_Z minutes * 60) in
  pad2 minutes ++ ":" ++ pad2 secs.

(** [_format_transcript] *)
Definition format_transcript (t : TranscriptResult) : string :=
  Py.join NL (map (fun s =>
    if Qlt_le_dec 0 (start_time s)
    then "[" ++ format_time (start_time s) ++ "] " ++ speaker s ++ ": " ++ text s
    else speaker s ++ ": " ++ text s) (segments t)).

Definition FALLBACK_OVERVIEW : string :=
  "Summary generation failed. Please review the transcript.".

(** What [json.loads(content)] does: return the decoded value, raise a
    [JSONDecodeError] (with its message), or raise another exception, as
    CPython's decoder does with [RecursionError] on a document nested
    deeper than the recursion limit. *)
Inductive loads_result :=
| Loaded (j : json)
| DecodeError (msg : string)
| LoadRaised (e : exn).

Section Generate.
Variable json_loads : string -> loads_result.
(** The chat-completion request, from the transcript text, the context and
    the participants, to [response.choices[0].message.content]. *)
Variable chat_completion : string -> string -> list string -> outcome (option string).

(** The [except Exception] handler: re-raise as an API error. *)
Definition api_failure {A} (e : exn) : outcome A :=
  let s := Py.lower (message e) in
  if Py.contains "authentication" s || Py.contains "api key" s then
    Raise (mkExn APIAuthenticationError ("OpenAI API authentication failed: " ++ message e))
  else Raise (mkExn APIError ("Summary generation error: " ++ message e)).

(** [generate_summary] *)
Definition generate_summary (transcript : TranscriptResult) (context : string)
    (participants : list string) : outcome Summary :=
  let transcript_text := format_transcript transcript in
  match chat_completion transcript_text context participants with
  | Raise e => api_failure e
  | Ret None =>
      api_failure (mkExn Exception
        "the JSON object must be str, bytes or bytearray, not NoneType")
  | Ret (Some content) =>
      match json_loads content with
      | DecodeError _ =>
          (* except json.JSONDecodeError *)
          Ret (mkSummary (JStr FALLBACK_OVERVIEW) (JArr []) [] participants)
      | LoadRaised e => api_failure e
      | Loaded summary_data =>
          let attr_error := mkExn Exception "object has no attribute 'get'" in
          match get summary_data "action_items" (JArr []) with
          | None => api_failure attr_error
          | Some ai =>
              match iter ai with
              | None => api_failure (mkExn Exception "object is not iterable")
              | Some items =>
                  match action_items_of items, get summary_data "overview" (JStr ""),
                        get summary_data "key_points" (JArr []) with
                  | Some acts, Some ov, Some kp =>
                      if has_len kp
                      then Ret (mkSummary ov kp acts participants)
                      else api_failure (mkExn Exception "object has no len()")
                  | _, _, _ => api_failure attr_error
                  end
              end
          end
      end
  end.

End Generate.
End Summarizer.

(* ------------------------------------------------------------------ *)
(** ** Entity de-duplication (app/services/entity_extraction.py) *)
Module EntityExtraction.

Record EntityMetadata := mkMetadata {
  currency : option string;
  role : option string;
  amount : option Q;
  date_iso : option string
}.

(** [ExtractedEntity]; [type] is a keyword of Rocq, hence [etype]. *)
Record ExtractedEntity := mkEntity {
  entity : string;
  etype : string;
  normalized_form : string;
  context : option string;
  metadata : EntityMetadata
}.

(** A Python dict with string keys, in insertion order. *)
Definition dict (V : Type) := list (string * V).

Fixpoint dict_get {V} (k : string) (d : dict V) : option V :=
  match d with
  | [] => None
  | (k', v) :: r => if String.eqb k k' then Some v else dict_get k r
  end.

(** [d[k] = v]: an existing key keeps its position, a new one goes last. *)
Fixpoint dict_set {V} (k : string) (v : V) (d : dict V) : dict V :=
  match d with
  | [] => [(k, v)]
  | (k', v') :: r => if String.eqb k k' then (k', v) :: r else (k', v') :: dict_set k v r
  end.

Definition dict_contains {V} (k : string) (d : dict V) : bool :=
  match dict_get k d with Some _ => true | None => false end.

(** One iteration of the grouping loop of [extract_and_deduplicate]. *)
Definition group_step (grouped : dict (dict ExtractedEntity)) (e : ExtractedEntity)
    : dict (dict ExtractedEntity) :=
  let grouped := if dict_contains (etype e) grouped then grouped
                 else dict_set (etype e) [] grouped in
  let inner := match dict_get (etype e) grouped with Some d => d | None => [] end in
  let key := normalized_form e in
  if dict_contains key inner then grouped
  else dict_set (etype e) (dict_set key e inner) grouped.

(** [extract_and_deduplicate], on the list [extract_entities] returned. *)
Definition extract_and_deduplicate (entities : list ExtractedEntity)
    : dict (list ExtractedEntity) :=
  let grouped := fold_left group_step entities [] in
  map (fun td => (fst td, map snd (snd td))) grouped.

End EntityExtraction.

(* ------------------------------------------------------------------ *)
(** ** Transcription service (app/services/transcription.py) and language
    detection (app/services/language_detection.py) *)
Module Service.
Import Models.

(** The transcriber object [transcribe_audio] builds, with the constructor
    arguments it keeps. *)
Inductive Transcriber :=
| WhisperT (api_key model : string) (language : option string)
| IvritT (api_key endpoint_id model language : string).

(** The provider dispatch of [transcribe_audio]. *)
Definition make_transcriber (provider model api_key : string)
    (endpoint_id language : option string) : outcome Transcriber :=
  if String.eqb (Py.lower provider) "whisper" then
    Ret (WhisperT api_key model language)
  else if String.eqb (Py.lower provider) "ivrit" then
    if negb (Routing.truthy endpoint_id) then
      Raise (mkExn ValueError "endpoint_id is required for Ivrit provider")
    else
      (* [IvritTranscriber.__init__]: [self.language = language or "he"] *)
      Ret (IvritT api_key (match endpoint_id with Some e => e | None => "" end) model
             (match language with
              | Some l => if String.eqb l "" then "he" else l
              | None => "he"
              end))
  else
    Raise (mkExn ValueError ("Unsupported transcription provider: " ++ provider ++
                             ". Supported providers: 'whisper', 'ivrit'")).

(** [transcriber.validate_config()] of the two providers (the key-prefix
    checks only log a warning). *)
Definition validate_config (t : Transcriber) : outcome unit :=
  match t with
  | WhisperT api_key _ _ =>
      if String.eqb api_key "" then
        Raise (mkExn ConfigurationError "OpenAI API key is required for Whisper")
      else Ret tt
  | IvritT api_key endpoint_id _ _ =>
      if String.eqb api_key "" then
        Raise (mkExn ConfigurationError "Ivrit API key is not configured")
      else if String.eqb endpoint_id "" then
        Raise (mkExn ConfigurationError "Ivrit endpoint ID is not configured")
      else Ret tt
  end.

(** [language_detection.LANGUAGE_PROVIDER_MAP] and the methods of
    [LanguageDetectionService] that read it. *)
Definition LD_LANGUAGE_PROVIDER_MAP : list (string * string) :=
  [("he", "ivrit"); ("en", "whisper")].

Definition ld_get_provider_for_language (language : string) : string :=
  match Routing.assoc_get language LD_LANGUAGE_PROVIDER_MAP with
  | Some p => p
  | None => "whisper"
  end.

Definition ld_get_model_for_provider (provider language : string) : string :=
  if String.eqb provider "ivrit" then "ivrit-ai/whisper-large-v3-turbo-ct2"
  else "whisper-1".

Section Service.
(** [self.audio_processor.process(audio_path)]: the processed file's path,
    or the exception it raises.  ([cleanup] catches every exception.) *)
Variable process : string -> outcome string.
Variable file_exists : string -> bool.
(** [AsyncOpenAI(api_key=...).audio.transcriptions.create(...)] at the
    [n]-th call, for the transcriber's key and [language] setting. *)
Variable openai_create : string -> option string -> nat -> outcome Whisper.Response.
(** [ivrit.load_model(...)] and the loaded model's [transcribe], for the
    transcriber's key, endpoint, model and language. *)
Variable ivrit_load : string -> string -> string -> outcome unit.
Variable ivrit_run : string -> string -> string -> string -> string -> outcome Ivrit.IvritResult.

(** [await transcriber.transcribe(processed_audio)] *)
Definition run (t : Transcriber) (audio_path : string) : outcome TranscriptResult :=
  match t with
  | WhisperT api_key model language =>
      Whisper.transcribe model file_exists (openai_create api_key language) audio_path
  | IvritT api_key endpoint_id model language =>
      Ivrit.transcribe model language file_exists (ivrit_load api_key endpoint_id model)
        (ivrit_run api_key endpoint_id model language) audio_path
  end.

(** [TranscriptionService.transcribe_audio]; the [except] block only cleans
    up and re-raises. *)
Definition transcribe_audio (audio_path provider model api_key : string)
    (participants : list string) (endpoint_id language : option string)
    : outcome TranscriptResult :=
  match process audio_path with
  | Raise e => Raise e
  | Ret processed_audio =>
      match make_transcriber provider model api_key endpoint_id language with
      | Raise e => Raise e
      | Ret transcriber =>
          match validate_config transcriber with
          | Raise e => Raise e
          | Ret _ =>
              match run transcriber processed_audio with
              | Raise e => Raise e
              | Ret transcript_result =>
                  Ret (match participants with
                       | [] => transcript_result
                       | _ => SpeakerLabeler.label_speakers participants transcript_result
                       end)
              end
          end
      end
  end.

(** [WhisperTranscriber(api_key=api_key).detect_language(audio_path)]: the
    retried call without a [language] argument; the confidence is 1.0. *)
Definition whisper_detect_language (api_key audio_path : string) : outcome (string * Q) :=
  match Tenacity.final (Whisper.transcribe_with_retry file_exists
                          (openai_create api_key None) audio_path) with
  | Ret transcript =>
      Ret (match Whisper.resp_language transcript with Some l => l | None => "unknown" end, 1%Q)
  | Raise e => Raise (Whisper.handle_api_error e)
  end.

(** [TranscriptionService.detect_language] *)
Definition detect_language (audio_path api_key : string) : outcome (string * Q) :=
  match process audio_path with
  | Raise e => Raise e
  | Ret processed_audio => whisper_detect_language api_key processed_audio
  end.

(** [TranscriptionService.transcribe_with_auto_routing] *)
Definition transcribe_with_auto_routing (audio_path openai_api_key : string)
    (ivrit_api_key ivrit_endpoint_id : option string) (participants : list string)
    : outcome (TranscriptResult * string) :=
  match detect_language audio_path openai_api_key with
  | Raise e => Raise e
  | Ret (language, _) =>
      let r := Routing.route language openai_api_key ivrit_api_key ivrit_endpoint_id in
      match transcribe_audio audio_path (Routing.provider r) (Routing.model r)
              (Routing.api_key r) participants (Routing.endpoint_id r) (Some language) with
      | Raise e => Raise e
      | Ret transcript_result => Ret (transcript_result, language)
      end
  end.

(** [LanguageDetectionService(openai_api_key).detect_and_route(audio_path)]:
    [(language, provider, model, confidence)]. *)
Definition detect_and_route (openai_api_key audio_path : string)
    : outcome (string * string * string * Q) :=
  match whisper_detect_language openai_api_key audio_path with
  | Raise e => Raise e
  | Ret (language, confidence) =>
      let provider := ld_get_provider_for_language language in
      Ret (language, provider, ld_get_model_for_provider provider language, confidence)
  end.

End Service.
End Service.

(* ------------------------------------------------------------------ *)
(** ** Reply clean-up of [extract_entities] (app/services/entity_extraction.py) *)
Module EntityReply.

(** The text [extract_entities] hands to [json.loads]: the reply content
    stripped and, when it opens a markdown code fence, the piece after the
    first fence ([split("```")[1]]) without a leading [json] tag, stripped
    again.  The [IndexError] of [[1]] is raised as an [Exception]. *)
Definition clean_reply (content : string) : outcome string :=
  let content := Py.strip content in
  if String.prefix "```" content then
    match nth_error (Py.split content "```") 1 with
    | None => Raise (mkExn Exception "list index out of range")
    | Some content =>
        let content := if String.prefix "json" content
                       then substring 4 (String.length content) content
                       else content in
        Ret (Py.strip content)
    end
  else Ret content.

End EntityReply.

(* ================================================================== *)
(** * Properties *)
Open Scope nat_scope.
Open Scope string_scope.

(* ------------------------------------------------------------------ *)
(** ** Routing *)

(** C3: the provider and model handed to [transcribe_audio] are the Ivrit
    pair exactly when the detected language is "he" and both Ivrit
    credentials are set; every other language ("xx", "en", ...) and a "he"
    without Ivrit credentials or endpoint get Whisper with "whisper-1". *)
Theorem route_provider_model (language openai_api_key : string)
    (ivrit_api_key ivrit_endpoint_id : option string) :
  let r := Routing.route language openai_api_key ivrit_api_key ivrit_endpoint_id in
  (Routing.provider r, Routing.model r) =
    (if String.eqb language "he" && Routing.truthy ivrit_api_key
        && Routing.truthy ivrit_endpoint_id
     then ("ivrit", "ivrit-ai/whisper-large-v3-turbo-ct2")
     else ("whisper", "whisper-1")).
Proof.
  unfold Routing.route, Routing.get_provider_for_language; simpl.
  destruct (String.eqb language "he") eqn:Hhe.
  - apply String.eqb_eq in Hhe; subst; simpl.
    destruct (Routing.truthy ivrit_api_key), (Routing.truthy ivrit_endpoint_id);
      reflexivity.
  - destruct (String.eqb language "en"); simpl; reflexivity.
Qed.

(* ------------------------------------------------------------------ *)
(** ** Speaker labeling *)

(** The label the spec gives to the [i]-th segment. *)
Definition expected_label (participants : list string) (i : nat) : string :=
  match participants with
  | [] => match i mod 3 with
          | 0 => "Speaker 1"
          | 1 => "Speaker 2"
          | _ => "Speaker 3"
          end
  | p :: _ => nth (i mod length participants) participants p
  end.

Lemma show_small_label (i : nat) :
  "Speaker " ++ Py.show_nat (i mod 3 + 1) =
  match i mod 3 with 0 => "Speaker 1" | 1 => "Speaker 2" | _ => "Speaker 3" end.
Proof.
  assert (Hlt : i mod 3 < 3) by (apply Nat.mod_upper_bound; lia).
  destruct (i mod 3) as [|[|[|k]]]; try reflexivity; lia.
Qed.

Lemma label_from_spec (participants : list string) (idx : nat)
    (segs : list Models.TranscriptSegment) :
  map Models.speaker (SpeakerLabeler.label_from participants idx segs) =
    map (expected_label participants) (seq idx (length segs))
  /\ map (fun s => (Models.text s, Models.start_time s, Models.end_time s))
       (SpeakerLabeler.label_from participants idx segs) =
     map (fun s => (Models.text s, Models.start_time s, Models.end_time s)) segs.
Proof.
  revert idx; induction segs as [|s r IH]; intro idx; [split; reflexivity|].
  simpl; destruct (IH (S idx)) as [H1 H2]; rewrite H1, H2; split; [|reflexivity].
  f_equal; unfold SpeakerLabeler.speaker_name, expected_label.
  destruct participants; [apply show_small_label | reflexivity].
Qed.

(** C4: for N segments, the i-th labelled segment (0 <= i < N) is named
    [P[i % len(P)]] when the participant list P is non-empty and
    "Speaker ((i % 3) + 1)" when it is empty; text and times are kept. *)
Theorem label_speakers_round_robin (participants : list string)
    (t : Models.TranscriptResult) :
  map Models.speaker (Models.segments (SpeakerLabeler.label_speakers participants t)) =
    map (expected_label participants) (seq 0 (length (Models.segments t)))
  /\ map (fun s => (Models.text s, Models.start_time s, Models.end_time s))
       (Models.segments (SpeakerLabeler.label_speakers participants t)) =
     map (fun s => (Models.text s, Models.start_time s, Models.end_time s))
       (Models.segments t).
Proof. apply label_from_spec. Qed.

(* ------------------------------------------------------------------ *)
(** ** Text-import parser *)

(** The sample file of the scenario does not parse into two segments. *)
Lemma sample_import_not_two_segments :
  ~ (exists r, TranscriptParser.parse_text_file TranscriptParser.sample_import = Ok r
               /\ length (TranscriptParser.segments r) = 2).
Proof.
  intros [r [H Hlen]]; vm_compute in H; injection H as <-; discriminate Hlen.
Qed.

(** C8: what [parse_text_file] returns on the scenario's file.  It splits
    on "\nS\n", so the leading "S" line is not a delimiter: the whole file
    is one part, and the file gives a single segment whose text swallows
    the leading "S" and the second speaker block.  Only with a newline in
    front of it does the file give the two segments of the scenario. *)
Theorem sample_import_parse :
  TranscriptParser.parse_text_file TranscriptParser.sample_import =
    Ok (TranscriptParser.mkResult
          [TranscriptParser.mkSegment "speaker_1" "S Hello Speaker 2 00:10 World" 5 10]
          "he" 10 "text_import")
  /\ TranscriptParser.parse_text_file (NL ++ TranscriptParser.sample_import) =
    Ok (TranscriptParser.mkResult
          [TranscriptParser.mkSegment "speaker_1" "Hello" 5 10;
           TranscriptParser.mkSegment "speaker_2" "World" 10 15]
          "he" 15 "text_import").
Proof. split; vm_compute; reflexivity. Qed.

Lemma validate_segment_ordered (s : TranscriptParser.TranscriptSegment) :
  (TranscriptParser.start_time (TranscriptParser.validate_segment s)
   <= TranscriptParser.end_time (TranscriptParser.validate_segment s))%Z.
Proof.
  unfold TranscriptParser.validate_segment.
  destruct (TranscriptParser.end_time s <=? TranscriptParser.start_time s)%Z eqn:H;
    simpl; [lia | apply Z.leb_gt in H; lia].
Qed.

(** C9: every segment of a successful parse has [end_time >= start_time];
    the segments are the output of the validation pass, which resets a
    violating [end_time] to [start_time + 5]. *)
Theorem parse_text_file_times_ordered (content : string)
    (r : TranscriptParser.TranscriptResult) :
  TranscriptParser.parse_text_file content = Ok r ->
  (exists pre, TranscriptParser.segments r
               = map TranscriptParser.validate_segment pre)
  /\ Forall (fun s => (TranscriptParser.start_time s
                       <= TranscriptParser.end_time s)%Z)
       (TranscriptParser.segments r).
Proof.
  unfold TranscriptParser.parse_text_file.
  destruct (String.eqb (Py.strip content) ""); [discriminate|].
  destruct (Nat.ltb _ 2); [discriminate|].
  destruct (TranscriptParser.process_parts _) as [|s0 rest]; [discriminate|].
  intro H; injection H as <-; simpl.
  unfold TranscriptParser.fix_times; split; [eexists; reflexivity|].
  apply Forall_map, Forall_forall; intros; apply validate_segment_ordered.
Qed.

(** A file whose second block has an earlier timestamp than the first. *)
Definition decreasing_import : string :=
  NL ++ "S" ++ NL ++ "Speaker 1" ++ NL ++ "00:10" ++ NL ++ "A" ++ NL ++
  "S" ++ NL ++ "Speaker 2" ++ NL ++ "00:05" ++ NL ++ "B".

Lemma parse_text_file_times_ordered_witness :
  TranscriptParser.parse_text_file decreasing_import =
    Ok (TranscriptParser.mkResult
          [TranscriptParser.mkSegment "speaker_1" "A" 10 15;
           TranscriptParser.mkSegment "speaker_2" "B" 5 10]
          "he" 10 "text_import")
  /\ TranscriptParser.link_end_times
       [TranscriptParser.mkSegment "speaker_1" "A" 10 15;
        TranscriptParser.mkSegment "speaker_2" "B" 5 10]
     = [TranscriptParser.mkSegment "speaker_1" "A" 10 5;
        TranscriptParser.mkSegment "speaker_2" "B" 5 10]
  /\ TranscriptParser.validate_segment (TranscriptParser.mkSegment "speaker_1" "A" 10 5)
     = TranscriptParser.mkSegment "speaker_1" "A" 10 15
  /\ Forall (fun s => (TranscriptParser.start_time s <= TranscriptParser.end_time s)%Z)
       [TranscriptParser.mkSegment "speaker_1" "A" 10 15;
        TranscriptParser.mkSegment "speaker_2" "B" 5 10].
Proof.
  assert (H : TranscriptParser.parse_text_file decreasing_import =
    Ok (TranscriptParser.mkResult
          [TranscriptParser.mkSegment "speaker_1" "A" 10 15;
           TranscriptParser.mkSegment "speaker_2" "B" 5 10]
          "he" 10 "text_import")) by (vm_compute; reflexivity).
  split; [exact H|]. split; [reflexivity|]. split; [reflexivity|].
  exact (proj2 (parse_text_file_times_ordered _ _ H)).
Defined.

(* ------------------------------------------------------------------ *)
(** ** Whisper retries *)

Lemma retrying_attempts_bound {A} (max_attempts : nat) (wait : nat -> Z)
    (cls : exn_kind) (f : nat -> outcome A) (fuel n : nat) :
  n <= max_attempts ->
  Tenacity.attempts (Tenacity.retrying_go max_attempts wait cls f fuel n) <= max_attempts.
Proof.
  revert n; induction fuel as [|fuel IH]; intros n H; simpl; [lia|].
  destruct (f n) as [a|e]; simpl; [lia|].
  destruct (negb (is_instance (kind e) cls)); simpl; [lia|].
  destruct (Nat.leb max_attempts n) eqn:Hs; simpl; [lia|].
  apply Nat.leb_gt in Hs; apply IH; lia.
Qed.

(** C2: the tenacity-wrapped [_transcribe_with_retry] makes at most 3
    attempts; two attempts raising the classified [APINetworkError] and a
    successful third give the third result, after the two
    [wait_exponential(1, 4, 10)] sleeps; a first attempt raising
    [APIAuthenticationError] or [APIRateLimitError] is the only attempt and
    its exception is re-raised. *)
Theorem transcribe_with_retry_policy (file_exists : string -> bool)
    (create : nat -> outcome Whisper.Response) (audio_path : string) :
  let attempt := Whisper.transcribe_attempt file_exists create audio_path in
  let t := Whisper.transcribe_with_retry file_exists create audio_path in
  Tenacity.attempts t <= 3
  /\ (forall e1 e2 r,
        attempt 1 = Raise e1 -> kind e1 = APINetworkError ->
        attempt 2 = Raise e2 -> kind e2 = APINetworkError ->
        attempt 3 = Ret r ->
        t = Tenacity.mkTrace (Ret r) 3 [4%Z; 4%Z])
  /\ (forall e,
        attempt 1 = Raise e ->
        kind e = APIAuthenticationError \/ kind e = APIRateLimitError ->
        t = Tenacity.mkTrace (Raise e) 1 []).
Proof.
  intros attempt t; split; [|split].
  - apply retrying_attempts_bound; lia.
  - intros e1 e2 r H1 K1 H2 K2 H3.
    unfold t, Whisper.transcribe_with_retry, Tenacity.retrying; simpl.
    fold attempt; rewrite H1, K1; simpl.
    rewrite H2, K2; simpl.
    rewrite H3; reflexivity.
  - intros e H1 K.
    unfold t, Whisper.transcribe_with_retry, Tenacity.retrying; simpl.
    fold attempt; rewrite H1.
    destruct K as [K|K]; rewrite K; reflexivity.
Qed.

(** An API that fails twice with a connection error, then answers. *)
Definition flaky_create (n : nat) : outcome Whisper.Response :=
  if Nat.ltb n 3 then Raise (mkExn Exception "Connection error.")
  else Ret (Whisper.mkResponse "shalom" (Some "he")).

Definition auth_failing_create (n : nat) : outcome Whisper.Response :=
  Raise (mkExn Exception "Error code: 401 - Incorrect API key provided").

Lemma transcribe_with_retry_policy_witness :
  Whisper.transcribe_with_retry (fun _ => true) flaky_create "a.m4a" =
    Tenacity.mkTrace (Ret (Whisper.mkResponse "shalom" (Some "he"))) 3 [4%Z; 4%Z]
  /\ Tenacity.attempts
       (Whisper.transcribe_with_retry (fun _ => true) auth_failing_create "a.m4a") = 1.
Proof.
  split.
  - destruct (transcribe_with_retry_policy (fun _ => true) flaky_create "a.m4a")
      as [_ [H _]].
    apply (H (Whisper.handle_api_error (mkExn Exception "Connection error."))
             (Whisper.handle_api_error (mkExn Exception "Connection error.")));
      vm_compute; reflexivity.
  - destruct (transcribe_with_retry_policy (fun _ => true) auth_failing_create "a.m4a")
      as [_ [_ H]].
    rewrite (H (Whisper.handle_api_error
                  (mkExn Exception "Error code: 401 - Incorrect API key provided")));
      [reflexivity | vm_compute; reflexivity | left; vm_compute; reflexivity].
Defined.

(* ------------------------------------------------------------------ *)
(** ** Missing input files *)

Lemma handle_api_error_is_api_error (e : exn) :
  is_instance (kind (Whisper.handle_api_error e)) APIError = true.
Proof.
  unfold Whisper.handle_api_error.
  repeat match goal with |- context [if ?b then _ else _] => destruct b end;
    reflexivity.
Qed.

Lemma retrying_always_raises {A} (max_attempts : nat) (wait : nat -> Z)
    (cls : exn_kind) (f : nat -> outcome A) (e : exn) (fuel n : nat) :
  (forall k, f k = Raise e) ->
  Tenacity.final (Tenacity.retrying_go max_attempts wait cls f fuel n) = Raise e.
Proof.
  intro Hf; revert n; induction fuel as [|fuel IH]; intro n; simpl; rewrite Hf;
    [reflexivity|].
  destruct (negb _); [reflexivity|].
  destruct (Nat.leb _ _); [reflexivity | apply IH].
Qed.

(** C7: on a path that does not exist, Ivrit raises [ValueError], while
    Whisper raises an [APIError] (the classified [FileNotFoundError] of
    [open]), never [AudioFileError] or [ValueError]. *)
Theorem missing_file_errors (audio_path model language : string)
    (file_exists : string -> bool) (create : nat -> outcome Whisper.Response)
    (load_model : outcome unit) (model_transcribe : string -> outcome Ivrit.IvritResult) :
  file_exists audio_path = false ->
  Ivrit.transcribe model language file_exists load_model model_transcribe audio_path
    = Raise (mkExn ValueError ("Audio file not found: " ++ audio_path))
  /\ Whisper.transcribe model file_exists create audio_path
     = Raise (Whisper.handle_api_error
                (Whisper.handle_api_error (Whisper.file_not_found audio_path)))
  /\ exists e, Whisper.transcribe model file_exists create audio_path = Raise e
       /\ is_instance (kind e) APIError = true
       /\ kind e <> AudioFileError /\ kind e <> ValueError.
Proof.
  intro Hnf.
  assert (Hw : Whisper.transcribe model file_exists create audio_path
     = Raise (Whisper.handle_api_error
                (Whisper.handle_api_error (Whisper.file_not_found audio_path)))).
  { unfold Whisper.transcribe, Whisper.transcribe_with_retry, Tenacity.retrying.
    rewrite (retrying_always_raises _ _ _ _
               (Whisper.handle_api_error (Whisper.file_not_found audio_path)));
      [reflexivity|].
    intro k; unfold Whisper.transcribe_attempt; rewrite Hnf; reflexivity. }
  split; [unfold Ivrit.transcribe; rewrite Hnf; reflexivity|].
  split; [exact Hw|].
  eexists; split; [exact Hw|].
  pose proof (handle_api_error_is_api_error
                (Whisper.handle_api_error (Whisper.file_not_found audio_path))) as Hk.
  split; [exact Hk|].
  split; intro Heq; rewrite Heq in Hk; discriminate.
Qed.

Lemma missing_file_errors_witness :
  Whisper.transcribe "whisper-1" (fun _ => false) auth_failing_create "meeting.m4a"
  = Raise (mkExn APIError
      "OpenAI API error: OpenAI API error: [Errno 2] No such file or directory: 'meeting.m4a'").
Proof.
  destruct (missing_file_errors "meeting.m4a" "whisper-1" "he" (fun _ => false)
              auth_failing_create (Ret tt) (fun _ => Raise (mkExn Exception "unused"))
              eq_refl) as [_ [H _]].
  rewrite H; vm_compute; reflexivity.
Defined.

(* ------------------------------------------------------------------ *)
(** ** Summarizer fallback *)

(** A reply of 3000 opening brackets: not valid JSON, it has no closing
    bracket. *)
Fixpoint open_brackets (n : nat) : string :=
  match n with
  | O => EmptyString
  | S k => String "["%char (open_brackets k)
  end.

Definition deep_array_reply : string := open_brackets 3000.

Definition recursion_error : exn :=
  mkExn Exception
    "maximum recursion depth exceeded while decoding a JSON array from a unicode string".

(** [json.loads(deep_array_reply)] as CPython's decoder runs it: every '['
    enters one more recursion level, and past the interpreter's recursion
    limit (1000 by default in CPython 3.11) it raises [RecursionError], not
    [JSONDecodeError]. *)
Definition cpython_loads_deep (_ : string) : Summarizer.loads_result :=
  Summarizer.LoadRaised recursion_error.

(** C5 (as stated): a reply that is not valid JSON can make
    [generate_summary] raise: on [deep_array_reply] it raises an [APIError]
    instead of returning the fallback summary. *)
Lemma generate_summary_deep_reply_raises :
  Py.contains "]" deep_array_reply = false
  /\ Summarizer.generate_summary cpython_loads_deep
       (fun _ _ _ => Ret (Some deep_array_reply)) (Models.mkResult [] "en" []) ""
       ["Tom"; "Sarah"]
     = Raise (mkExn APIError ("Summary generation error: " ++ message recursion_error)).
Proof. split; vm_compute; reflexivity. Qed.

(** C5 (amended): when [json.loads] raises [JSONDecodeError] on the reply
    body, [generate_summary] returns (does not raise) the fallback summary:
    a non-empty explanatory overview, no key points, no action items and the
    given participants.  Any other exception [json.loads] raises goes to the
    [except Exception] handler, and [generate_summary] raises it as an
    [APIAuthenticationError] or an [APIError]. *)
Theorem generate_summary_json_fallback
    (json_loads : string -> Summarizer.loads_result)
    (chat_completion : string -> string -> list string -> outcome (option string))
    (transcript : Models.TranscriptResult) (context : string)
    (participants : list string) (content : string) :
  chat_completion (Summarizer.format_transcript transcript) context participants
    = Ret (Some content) ->
  (forall msg, json_loads content = Summarizer.DecodeError msg ->
     Summarizer.generate_summary json_loads chat_completion transcript context participants
     = Ret (Summarizer.mkSummary (Summarizer.JStr Summarizer.FALLBACK_OVERVIEW)
              (Summarizer.JArr []) [] participants))
  /\ Summarizer.FALLBACK_OVERVIEW <> ""
  /\ (forall e, json_loads content = Summarizer.LoadRaised e ->
        Summarizer.generate_summary json_loads chat_completion transcript context participants
        = Raise (if Py.contains "authentication" (Py.lower (message e))
                    || Py.contains "api key" (Py.lower (message e))
                 then mkExn APIAuthenticationError
                        ("OpenAI API authentication failed: " ++ message e)
                 else mkExn APIError ("Summary generation error: " ++ message e))).
Proof.
  intros Hchat; split; [|split; [discriminate|]].
  - intros msg Hjson; unfold Summarizer.generate_summary; rewrite Hchat, Hjson; reflexivity.
  - intros e Hjson; unfold Summarizer.generate_summary; rewrite Hchat, Hjson.
    unfold Summarizer.api_failure; destruct (_ || _); reflexivity.
Qed.

Definition decode_error_loads (_ : string) : Summarizer.loads_result :=
  Summarizer.DecodeError "Expecting value: line 1 column 1 (char 0)".

Lemma generate_summary_json_fallback_witness :
  Summarizer.generate_summary decode_error_loads (fun _ _ _ => Ret (Some "Sure! {oops"))
    (Models.mkResult [] "en" []) "" ["Tom"; "Sarah"]
  = Ret (Summarizer.mkSummary (Summarizer.JStr Summarizer.FALLBACK_OVERVIEW)
           (Summarizer.JArr []) [] ["Tom"; "Sarah"]).
Proof.
  destruct (generate_summary_json_fallback decode_error_loads
              (fun _ _ _ => Ret (Some "Sure! {oops")) (Models.mkResult [] "en" [])
              "" ["Tom"; "Sarah"] "Sure! {oops" eq_refl) as [H _].
  exact (H _ eq_refl).
Defined.

(* ------------------------------------------------------------------ *)
(** ** Refinement fallback *)

Section RefinementProps.
Import Models.

Lemma refine_transcript_cases
    (chat : string -> string -> outcome (option string))
    (transcript : TranscriptResult) (context : string) :
  Refinement.refine_transcript chat transcript context = Ret transcript
  \/ exists content,
       String.eqb (Py.strip context) "" = false
       /\ chat (Refinement.format_transcript transcript) context = Ret (Some content)
       /\ Refinement.refine_transcript chat transcript context
          = Ret (mkResult
                   (Refinement.parse_refined_transcript (Py.strip content)
                      (segments transcript))
                   (language transcript) (metadata transcript)).
Proof.
  unfold Refinement.refine_transcript, Refinement.refine_try,
    Refinement.refine_full_transcript.
  destruct (String.eqb (Py.strip context) "") eqn:Hc; [left; reflexivity|].
  destruct (chat _ context) as [[content|]|e] eqn:Hchat; [|left; reflexivity..].
  right; exists content; auto.
Qed.

Lemma parse_refined_cases (text : string) (original : list TranscriptSegment) :
  (Refinement.parsed_lines text original = []
   /\ Refinement.parse_refined_transcript text original = original)
  \/ (Refinement.parsed_lines text original <> []
      /\ Refinement.parse_refined_transcript text original
         = Refinement.parsed_lines text original).
Proof.
  unfold Refinement.parse_refined_transcript.
  destruct (Refinement.parsed_lines text original) eqn:H; [left | right];
    split; auto; discriminate.
Qed.

(** C1 (as stated): an empty input transcript with a blank context comes
    back with an empty segment list. *)
Lemma refine_transcript_empty_segments :
  ~ (forall chat transcript context,
       exists r, Refinement.refine_transcript chat transcript context = Ret r
                 /\ segments r <> []).
Proof.
  intro H.
  destruct (H (fun _ _ => Raise (mkExn Exception "unused"))
              (mkResult [] "he" []) "") as [r [Hr Hne]].
  vm_compute in Hr; injection Hr as <-; apply Hne; reflexivity.
Qed.

(** C1 (amended): [refine_transcript] never raises; a blank context
    returns the input transcript; a failing call (an exception, or a null
    reply content) returns the input transcript; a reply of which no line
    parses keeps the original segments; so the returned segment list is
    either the input's or a non-empty list of refined segments, and it is
    non-empty whenever the input's is. *)
Theorem refine_transcript_fallback
    (chat : string -> string -> outcome (option string))
    (transcript : TranscriptResult) (context : string) :
  (String.eqb (Py.strip context) "" = true ->
     Refinement.refine_transcript chat transcript context = Ret transcript)
  /\ (forall e, chat (Refinement.format_transcript transcript) context = Raise e ->
        Refinement.refine_transcript chat transcript context = Ret transcript)
  /\ (chat (Refinement.format_transcript transcript) context = Ret None ->
        Refinement.refine_transcript chat transcript context = Ret transcript)
  /\ (forall content,
        chat (Refinement.format_transcript transcript) context = Ret (Some content) ->
        Refinement.parsed_lines (Py.strip content) (segments transcript) = [] ->
        exists r, Refinement.refine_transcript chat transcript context = Ret r
                  /\ segments r = segments transcript)
  /\ exists r, Refinement.refine_transcript chat transcript context = Ret r
       /\ (segments r = segments transcript \/ segments r <> [])
       /\ (segments transcript <> [] -> segments r <> []).
Proof.
  unfold Refinement.refine_transcript at 1 2 3 4.
  split; [intro Hc; rewrite Hc; reflexivity|].
  split; [intros e He; unfold Refinement.refine_try, Refinement.refine_full_transcript;
          rewrite He; destruct (String.eqb _ _); reflexivity|].
  split; [intro He; unfold Refinement.refine_try, Refinement.refine_full_transcript;
          rewrite He; destruct (String.eqb _ _); reflexivity|].
  split.
  - intros content He Hp.
    unfold Refinement.refine_try, Refinement.refine_full_transcript; rewrite He.
    destruct (String.eqb _ _); [exists transcript; auto|].
    eexists; split; [reflexivity|]; simpl.
    unfold Refinement.parse_refined_transcript; rewrite Hp; reflexivity.
  - destruct (refine_transcript_cases chat transcript context)
      as [H | [content [_ [_ H]]]].
    + exists transcript; auto.
    + eexists; split; [exact H|]; simpl.
      destruct (parse_refined_cases (Py.strip content) (segments transcript))
        as [[_ Hp] | [Hne Hp]]; rewrite Hp; auto.
Qed.

(** A reply that parses to no "Label: text" line. *)
Definition chat_unparsable (_ _ : string) : outcome (option string) :=
  Ret (Some "I cannot help with that").

Lemma refine_transcript_fallback_witness :
  Refinement.refine_transcript chat_unparsable
    (mkResult [mkSegment "Unknown" "shalom" 0 0] "he" []) "weekly sync"
  = Ret (mkResult [mkSegment "Unknown" "shalom" 0 0] "he" []).
Proof.
  destruct (refine_transcript_fallback chat_unparsable
              (mkResult [mkSegment "Unknown" "shalom" 0 0] "he" []) "weekly sync")
    as [_ [_ [_ [H _]]]].
  destruct (H "I cannot help with that" eq_refl) as [r [Hr Hs]];
    [vm_compute; reflexivity|].
  rewrite Hr; destruct r; simpl in Hs; subst.
  vm_compute in Hr; injection Hr; intros; subst; reflexivity.
Defined.

Lemma parse_lines_zero_total (lines : list string) (idx n : nat) (total : Q) :
  total == 0 ->
  Forall (fun s => start_time s == 0 /\ end_time s == 0)
    (Refinement.parse_lines lines idx n total).
Proof.
  intro Ht; revert idx; induction lines as [|l r IH]; intro idx; simpl; [constructor|].
  destruct (String.eqb _ _); [apply IH|].
  destruct (Refinement.line_match _) as [[g1 g2]|]; [|apply IH].
  constructor; [simpl|apply IH].
  unfold Qdiv; rewrite Ht, Qmult_0_l, !Qmult_0_r; split; reflexivity.
Qed.

(** C10: a Whisper transcript (one segment timed 0.0 to 0.0) refined with
    a reply of which at least one line parses gives segments all timed
    0.0 to 0.0: the synthetic times are fractions of the last original
    [end_time]. *)
Theorem refine_whisper_transcript_zero_times
    (chat : string -> string -> outcome (option string))
    (transcript : TranscriptResult) (context content sp txt : string) :
  segments transcript = [mkSegment sp txt 0 0] ->
  String.eqb (Py.strip context) "" = false ->
  chat (Refinement.format_transcript transcript) context = Ret (Some content) ->
  Refinement.parsed_lines (Py.strip content) (segments transcript) <> [] ->
  exists r, Refinement.refine_transcript chat transcript context = Ret r
    /\ segments r <> []
    /\ Forall (fun s => start_time s == 0 /\ end_time s == 0) (segments r).
Proof.
  intros Hseg Hc Hchat Hp.
  unfold Refinement.refine_transcript, Refinement.refine_try,
    Refinement.refine_full_transcript.
  rewrite Hc, Hchat; eexists; split; [reflexivity|]; simpl.
  unfold Refinement.parse_refined_transcript.
  destruct (Refinement.parsed_lines _ _) eqn:Hl; [contradiction|].
  split; [discriminate|].
  rewrite <- Hl; unfold Refinement.parsed_lines.
  apply parse_lines_zero_total.
  rewrite Hseg; reflexivity.
Qed.

(** A reply naming two speakers. *)
Definition chat_two_speakers (_ _ : string) : outcome (option string) :=
  Ret (Some ("Tom: shalom" ++ NL ++ "Sarah: hi")).

Lemma refine_whisper_transcript_zero_times_witness :
  exists r,
    Refinement.refine_transcript chat_two_speakers
      (mkResult [mkSegment "Unknown" "shalom" 0 0] "he" []) "weekly sync" = Ret r
    /\ Forall (fun s => start_time s == 0 /\ end_time s == 0) (segments r).
Proof.
  destruct (refine_whisper_transcript_zero_times chat_two_speakers
              (mkResult [mkSegment "Unknown" "shalom" 0 0] "he" []) "weekly sync"
              ("Tom: shalom" ++ NL ++ "Sarah: hi") "Unknown" "shalom" eq_refl eq_refl eq_refl)
    as [r [Hr [_ Hf]]]; [vm_compute; discriminate|].
  exists r; split; [exact Hr | exact Hf].
Defined.

End RefinementProps.

(* ------------------------------------------------------------------ *)
(** ** Entity de-duplication *)

Section EntityProps.
Import EntityExtraction.

Lemma dict_get_In {V} (k : string) (v : V) (d : dict V) :
  dict_get k d = Some v -> In (k, v) d.
Proof.
  induction d as [|[k' v'] r IH]; simpl; [discriminate|].
  destruct (String.eqb k k') eqn:E; [apply String.eqb_eq in E; subst|];
    intro H; [injection H as ->; left | right]; auto.
Qed.

Lemma dict_get_None {V} (k : string) (d : dict V) :
  dict_get k d = None -> ~ In k (map fst d).
Proof.
  induction d as [|[k' v'] r IH]; simpl; [auto|].
  destruct (String.eqb k k') eqn:E; [discriminate|].
  apply String.eqb_neq in E; intros H [H'|H']; [congruence | exact (IH H H')].
Qed.

Lemma dict_set_In {V} (k : string) (v : V) (d : dict V) (k' : string) (v' : V) :
  In (k', v') (dict_set k v d) -> (k' = k /\ v' = v) \/ In (k', v') d.
Proof.
  induction d as [|[k0 v0] r IH]; simpl.
  - intros [H|[]]; injection H as -> ->; auto.
  - destruct (String.eqb k k0) eqn:E.
    + apply String.eqb_eq in E; subst.
      intros [H|H]; [injection H as -> ->; auto | auto].
    + intros [H|H]; [auto|]. destruct (IH H) as [?|?]; auto.
Qed.

Lemma dict_set_keys_new {V} (k : string) (v : V) (d : dict V) :
  dict_get k d = None -> map fst (dict_set k v d) = (map fst d ++ [k])%list.
Proof.
  induction d as [|[k0 v0] r IH]; simpl; [reflexivity|].
  destruct (String.eqb k k0); [discriminate|].
  intro H; simpl; rewrite (IH H); reflexivity.
Qed.

Lemma dict_get_set {V} (k k' : string) (v : V) (d : dict V) :
  dict_get k' (dict_set k v d) = if String.eqb k' k then Some v else dict_get k' d.
Proof.
  induction d as [|[k0 v0] r IH]; simpl; [reflexivity|].
  destruct (String.eqb k k0) eqn:E; simpl.
  - apply String.eqb_eq in E; subst; destruct (String.eqb k' k0); reflexivity.
  - rewrite IH. destruct (String.eqb k' k) eqn:E1; [|reflexivity].
    apply String.eqb_eq in E1; subst; rewrite E; reflexivity.
Qed.

Lemma NoDup_snoc {A} (l : list A) (a : A) :
  NoDup l -> ~ In a l -> NoDup (l ++ [a])%list.
Proof.
  induction l as [|x r IH]; simpl; intros Hn Hi; [constructor; auto; constructor|].
  inversion Hn; subst; constructor; [|apply IH; auto].
  rewrite in_app_iff; intros [H|[H|[]]]; [contradiction | subst; auto].
Qed.

(** Every inner dict has distinct keys, each the [normalized_form] of its
    entity. *)
Definition grouped_ok (g : dict (dict ExtractedEntity)) : Prop :=
  forall t d, In (t, d) g ->
    NoDup (map fst d) /\ forall k x, In (k, x) d -> normalized_form x = k.

(** The entity stored under type [t] and key [k]. *)
Definition lookup2 (g : dict (dict ExtractedEntity)) (t k : string)
    : option ExtractedEntity :=
  match dict_get t g with Some d => dict_get k d | None => None end.

Lemma group_step_ok (g : dict (dict ExtractedEntity)) (e : ExtractedEntity) :
  grouped_ok g -> grouped_ok (group_step g e).
Proof.
  intros Hg.
  set (g1 := if dict_contains (etype e) g then g else dict_set (etype e) [] g).
  assert (Hg1 : grouped_ok g1).
  { unfold g1; destruct (dict_contains _ _); [exact Hg|].
    intros t d H; apply dict_set_In in H as [[-> ->]|H];
      [split; [constructor | intros _ _ []] | exact (Hg t d H)]. }
  unfold group_step; fold g1.
  set (inner := match dict_get (etype e) g1 with Some d => d | None => [] end).
  assert (Hin : NoDup (map fst inner)
                /\ forall k x, In (k, x) inner -> normalized_form x = k).
  { unfold inner; destruct (dict_get (etype e) g1) eqn:E;
      [exact (Hg1 _ _ (dict_get_In _ _ _ E)) | split; [constructor | intros _ _ []]]. }
  unfold dict_contains at 1; destruct (dict_get (normalized_form e) inner) eqn:Ek;
    [exact Hg1|].
  intros t d H; apply dict_set_In in H as [[-> ->]|H]; [|exact (Hg1 t d H)].
  destruct Hin as [Hn Hk]; split.
  - rewrite dict_set_keys_new by exact Ek.
    apply NoDup_snoc; [exact Hn | apply dict_get_None; exact Ek].
  - intros k x Hx; apply dict_set_In in Hx as [[-> ->]|Hx]; [reflexivity | eauto].
Qed.

Lemma group_step_lookup (g : dict (dict ExtractedEntity)) (e : ExtractedEntity)
    (t k : string) :
  lookup2 (group_step g e) t k =
    if String.eqb t (etype e) && String.eqb k (normalized_form e)
    then match lookup2 g t k with Some x => Some x | None => Some e end
    else lookup2 g t k.
Proof.
  set (g1 := if dict_contains (etype e) g then g else dict_set (etype e) [] g).
  assert (Hg1 : forall t' k', lookup2 g1 t' k' = lookup2 g t' k').
  { intros t' k'; unfold g1, dict_contains; destruct (dict_get (etype e) g) eqn:E;
      [reflexivity|].
    unfold lookup2; rewrite dict_get_set.
    destruct (String.eqb t' (etype e)) eqn:Et; [|reflexivity].
    apply String.eqb_eq in Et; subst; rewrite E; reflexivity. }
  unfold group_step; fold g1.
  set (inner := match dict_get (etype e) g1 with Some d => d | None => [] end).
  assert (Hinner : forall k', dict_get k' inner = lookup2 g1 (etype e) k').
  { intro k'; unfold inner, lookup2; destruct (dict_get (etype e) g1); reflexivity. }
  unfold dict_contains at 1; destruct (dict_get (normalized_form e) inner) eqn:Ek.
  - rewrite Hg1.
    destruct (String.eqb t (etype e)) eqn:Et; [|reflexivity].
    destruct (String.eqb k (normalized_form e)) eqn:Ekk; [|reflexivity]; simpl.
    apply String.eqb_eq in Et, Ekk; subst.
    rewrite Hinner, Hg1 in Ek; rewrite Ek; reflexivity.
  - unfold lookup2 at 1; rewrite dict_get_set.
    destruct (String.eqb t (etype e)) eqn:Et; simpl.
    + apply String.eqb_eq in Et; subst.
      rewrite dict_get_set, Hinner, Hg1.
      destruct (String.eqb k (normalized_form e)) eqn:Ekk; [|reflexivity].
      apply String.eqb_eq in Ekk; subst.
      rewrite Hinner, Hg1 in Ek; rewrite Ek; reflexivity.
    + rewrite <- (Hg1 t k); reflexivity.
Qed.

Lemma fold_group_lookup (es : list ExtractedEntity) (g : dict (dict ExtractedEntity))
    (t k : string) :
  lookup2 (fold_left group_step es g) t k =
    match lookup2 g t k with
    | Some x => Some x
    | None => find (fun e => String.eqb (etype e) t
                             && String.eqb (normalized_form e) k) es
    end.
Proof.
  revert g; induction es as [|e r IH]; intro g; simpl.
  - destruct (lookup2 g t k); reflexivity.
  - rewrite IH, group_step_lookup.
    rewrite (String.eqb_sym t (etype e)), (String.eqb_sym k (normalized_form e)).
    destruct (String.eqb (etype e) t && String.eqb (normalized_form e) k);
      destruct (lookup2 g t k); reflexivity.
Qed.

Lemma fold_group_ok (es : list ExtractedEntity) (g : dict (dict ExtractedEntity)) :
  grouped_ok g -> grouped_ok (fold_left group_step es g).
Proof.
  revert g; induction es as [|e r IH]; intros g Hg; simpl; [exact Hg|].
  apply IH, group_step_ok, Hg.
Qed.

Lemma find_values (d : dict ExtractedEntity) (k : string) :
  (forall k' x, In (k', x) d -> normalized_form x = k') ->
  find (fun x => String.eqb (normalized_form x) k) (map snd d) = dict_get k d.
Proof.
  induction d as [|[k0 x0] r IH]; intro H; simpl; [reflexivity|].
  rewrite (H k0 x0 (or_introl eq_refl)), String.eqb_sym.
  destruct (String.eqb k k0); [reflexivity|].
  apply IH; intros; eapply H; right; eassumption.
Qed.

Lemma dict_get_map_values (g : dict (dict ExtractedEntity)) (t : string) :
  dict_get t (map (fun td => (fst td, map snd (snd td))) g)
  = option_map (map snd) (dict_get t g).
Proof.
  induction g as [|[t0 d0] r IH]; simpl; [reflexivity|].
  destruct (String.eqb t t0); [reflexivity | exact IH].
Qed.

(** C6: in the result of [extract_and_deduplicate] no type's list holds two
    entities with the same [normalized_form], and the entity found under a
    type [t] and a form [k] is the first extracted entity of type [t] and
    form [k] (none when there is no such entity). *)
Theorem extract_and_deduplicate_first_unique (es : list ExtractedEntity) :
  (forall t l, In (t, l) (extract_and_deduplicate es) ->
     NoDup (map normalized_form l))
  /\ (forall t k,
        match dict_get t (extract_and_deduplicate es) with
        | Some l => find (fun x => String.eqb (normalized_form x) k) l
        | None => None
        end
        = find (fun e => String.eqb (etype e) t && String.eqb (normalized_form e) k) es).
Proof.
  assert (Hok : grouped_ok (fold_left group_step es []))
    by (apply fold_group_ok; intros t d []).
  unfold extract_and_deduplicate; split.
  - intros t l H; apply in_map_iff in H as [[t' d] [Heq Hin]].
    injection Heq as <- <-.
    destruct (Hok t' d Hin) as [Hn Hk].
    rewrite map_map.
    erewrite map_ext_in; [exact Hn|].
    intros [k x] Hx; simpl; exact (Hk k x Hx).
  - intros t k; rewrite dict_get_map_values.
    pose proof (fold_group_lookup es [] t k) as Hl; unfold lookup2 in Hl; simpl in Hl.
    destruct (dict_get t (fold_left group_step es [])) as [d|] eqn:Ed; simpl; [|exact Hl].
    rewrite find_values; [exact Hl|].
    exact (proj2 (Hok t d (dict_get_In _ _ _ Ed))).
Qed.

End EntityProps.

(* ================================================================== *)
(** * Further properties of the modelled code *)

(* ------------------------------------------------------------------ *)
(** ** Text-import parser *)

Lemma string_app_assoc (a b c : string) : (a ++ b) ++ c = a ++ (b ++ c).
Proof. induction a as [|x r IH]; simpl; [reflexivity | rewrite IH; reflexivity]. Qed.

Lemma string_app_empty_r (a : string) : a ++ "" = a.
Proof. induction a as [|x r IH]; simpl; [reflexivity | rewrite IH; reflexivity]. Qed.

Lemma split_go_no_sep (fuel : nat) (sep s cur : string) :
  Py.contains sep s = false -> Py.split_go fuel sep s cur = [cur ++ s].
Proof.
  revert s cur; induction fuel as [|f IH]; intros s cur H; simpl; [reflexivity|].
  destruct s as [|c r]; [rewrite string_app_empty_r; reflexivity|].
  change (Py.contains sep (String c r)) with
    (if String.prefix sep (String c r) then true else Py.contains sep r) in H.
  destruct (String.prefix sep (String c r)); [discriminate|].
  rewrite IH by exact H; rewrite string_app_assoc; reflexivity.
Qed.

(** X1: a blank file is rejected as empty; a non-blank file without any
    "\nS\n" delimiter is rejected as having an invalid format. *)
Theorem parse_text_file_rejects (content : string) :
  (String.eqb (Py.strip content) "" = true ->
     TranscriptParser.parse_text_file content =
     Err "Failed to parse transcript file: Transcript file is empty")
  /\ (String.eqb (Py.strip content) "" = false ->
      Py.contains TranscriptParser.S_DELIM content = false ->
      TranscriptParser.parse_text_file content =
      Err ("Failed to parse transcript file: " ++
           "Invalid transcript format: Expected segments separated by 'S' delimiter")).
Proof.
  unfold TranscriptParser.parse_text_file; split; intro Hb; rewrite Hb; [reflexivity|].
  intro Hs; unfold Py.split; rewrite split_go_no_sep by exact Hs; reflexivity.
Qed.

Lemma parse_text_file_rejects_witness :
  TranscriptParser.parse_text_file ("Speaker 1" ++ NL ++ "00:05" ++ NL ++ "Hello") =
  Err ("Failed to parse transcript file: " ++
       "Invalid transcript format: Expected segments separated by 'S' delimiter").
Proof.
  apply (proj2 (parse_text_file_rejects _)); vm_compute; reflexivity.
Defined.

Lemma link_end_times_nil (segs : list TranscriptParser.TranscriptSegment) :
  segs <> [] -> TranscriptParser.link_end_times segs <> [].
Proof. destruct segs as [|a [|b r]]; simpl; congruence. Qed.

Lemma set_last_end_cons (a : TranscriptParser.TranscriptSegment) r :
  r <> [] -> TranscriptParser.set_last_end (a :: r) = a :: TranscriptParser.set_last_end r.
Proof. destruct r; [congruence | reflexivity]. Qed.

Lemma fix_times_cons2 (a b : TranscriptParser.TranscriptSegment) r :
  TranscriptParser.fix_times (a :: b :: r) =
  TranscriptParser.validate_segment
    (TranscriptParser.mkSegment (TranscriptParser.speaker a) (TranscriptParser.text a)
       (TranscriptParser.start_time a) (TranscriptParser.start_time b))
  :: TranscriptParser.fix_times (b :: r).
Proof.
  unfold TranscriptParser.fix_times.
  change (TranscriptParser.link_end_times (a :: b :: r)) with
    (TranscriptParser.mkSegment (TranscriptParser.speaker a) (TranscriptParser.text a)
       (TranscriptParser.start_time a) (TranscriptParser.start_time b)
     :: TranscriptParser.link_end_times (b :: r)).
  rewrite set_last_end_cons by (apply link_end_times_nil; discriminate); reflexivity.
Qed.

Lemma fix_times_one (a : TranscriptParser.TranscriptSegment) :
  TranscriptParser.fix_times [a] =
  [TranscriptParser.mkSegment (TranscriptParser.speaker a) (TranscriptParser.text a)
     (TranscriptParser.start_time a) (TranscriptParser.start_time a + 5)].
Proof.
  unfold TranscriptParser.fix_times, TranscriptParser.validate_segment; simpl.
  destruct (_ <=? _)%Z eqn:H; [apply Z.leb_le in H; lia | reflexivity].
Qed.

(** What the time-fixing passes keep: speakers, texts and start times. *)
Lemma fix_times_keeps (segs : list TranscriptParser.TranscriptSegment) :
  map (fun s => (TranscriptParser.speaker s, TranscriptParser.text s,
                 TranscriptParser.start_time s)) (TranscriptParser.fix_times segs)
  = map (fun s => (TranscriptParser.speaker s, TranscriptParser.text s,
                   TranscriptParser.start_time s)) segs.
Proof.
  induction segs as [|a [|b r] IH]; [reflexivity | rewrite fix_times_one; reflexivity|].
  rewrite fix_times_cons2; cbn [map]; cbn [map] in IH; rewrite IH.
  unfold TranscriptParser.validate_segment; simpl.
  destruct (_ <=? _)%Z; reflexivity.
Qed.

Lemma fix_times_length (segs : list TranscriptParser.TranscriptSegment) :
  length (TranscriptParser.fix_times segs) = length segs.
Proof.
  pose proof (f_equal (@length _) (fix_times_keeps segs)) as K.
  rewrite !length_map in K; exact K.
Qed.

Lemma fix_times_links (segs : list TranscriptParser.TranscriptSegment) (i : nat)
    (s1 s2 : TranscriptParser.TranscriptSegment) :
  nth_error (TranscriptParser.fix_times segs) i = Some s1 ->
  nth_error (TranscriptParser.fix_times segs) (S i) = Some s2 ->
  TranscriptParser.end_time s1 =
    if (TranscriptParser.start_time s1 <? TranscriptParser.start_time s2)%Z
    then TranscriptParser.start_time s2 else (TranscriptParser.start_time s1 + 5)%Z.
Proof.
  revert i; induction segs as [|a [|b r] IH]; intros i H1 H2.
  - destruct i; discriminate.
  - rewrite fix_times_one in H2; destruct i as [|[|i]]; discriminate.
  - rewrite fix_times_cons2 in H1, H2; destruct i as [|i].
    + simpl in H1, H2; injection H1 as <-.
      assert (Hs2 : TranscriptParser.start_time s2 = TranscriptParser.start_time b).
      { pose proof (fix_times_keeps (b :: r)) as K.
        destruct (TranscriptParser.fix_times (b :: r)) as [|x xs]; [discriminate|].
        simpl in H2, K; injection H2 as ->; injection K; intros; congruence. }
      rewrite Hs2; unfold TranscriptParser.validate_segment; simpl.
      destruct (TranscriptParser.start_time b <=? TranscriptParser.start_time a)%Z eqn:E;
        simpl.
      * apply Z.leb_le in E.
        destruct (TranscriptParser.start_time a <? TranscriptParser.start_time b)%Z eqn:E2;
          [apply Z.ltb_lt in E2; lia|reflexivity].
      * apply Z.leb_gt in E.
        destruct (TranscriptParser.start_time a <? TranscriptParser.start_time b)%Z eqn:E2;
          [reflexivity|apply Z.ltb_ge in E2; lia].
    + exact (IH i H1 H2).
Qed.

Lemma last_fix_times (segs : list TranscriptParser.TranscriptSegment) (l : TranscriptParser.TranscriptSegment) rest :
  rev (TranscriptParser.fix_times segs) = l :: rest ->
  TranscriptParser.end_time l = (TranscriptParser.start_time l + 5)%Z.
Proof.
  revert l rest; induction segs as [|a [|b r] IH]; intros l rest H.
  - discriminate.
  - rewrite fix_times_one in H; simpl in H; injection H as <- _; reflexivity.
  - rewrite fix_times_cons2 in H; simpl in H.
    destruct (rev (TranscriptParser.fix_times (b :: r))) as [|x xs] eqn:E.
    + apply (f_equal (@length _)) in E; rewrite length_rev, fix_times_length in E.
      discriminate.
    + simpl in H; injection H as <- _; exact (IH x xs eq_refl).
Qed.

(** X2: for a successful parse whose start times are all at most
    2^53 - 5 seconds (the range where Python's float times are exact): it
    has at least one segment; each segment but the last ends where the next
    one starts when that start is later, and 5 seconds after its own start
    otherwise; the last segment lasts 5 seconds; [metadata["duration"]] is
    the last segment's end time. *)
Theorem parse_text_file_end_times (content : string) (r : TranscriptParser.TranscriptResult) :
  TranscriptParser.parse_text_file content = Ok r ->
  Forall (fun s => (TranscriptParser.start_time s + 5 <= 2 ^ 53)%Z)
    (TranscriptParser.segments r) ->
  TranscriptParser.segments r <> []
  /\ (forall i s1 s2,
        nth_error (TranscriptParser.segments r) i = Some s1 ->
        nth_error (TranscriptParser.segments r) (S i) = Some s2 ->
        TranscriptParser.end_time s1 =
          if (TranscriptParser.start_time s1 <? TranscriptParser.start_time s2)%Z
          then TranscriptParser.start_time s2 else (TranscriptParser.start_time s1 + 5)%Z)
  /\ (exists l rest, rev (TranscriptParser.segments r) = l :: rest
        /\ TranscriptParser.end_time l = (TranscriptParser.start_time l + 5)%Z
        /\ TranscriptParser.duration r = TranscriptParser.end_time l)
  /\ TranscriptParser.language r = "he"
  /\ TranscriptParser.source r = "text_import".
Proof.
  unfold TranscriptParser.parse_text_file.
  destruct (String.eqb (Py.strip content) ""); [discriminate|].
  destruct (Nat.ltb _ 2); [discriminate|].
  destruct (TranscriptParser.process_parts _) as [|s0 rest0] eqn:Hp; [discriminate|].
  intros H _; injection H as <-; simpl.
  assert (Hne : TranscriptParser.fix_times (s0 :: rest0) <> []).
  { intro E; pose proof (fix_times_keeps (s0 :: rest0)) as K; rewrite E in K;
      discriminate. }
  split; [exact Hne|]. split; [apply fix_times_links|].
  split; [|split; reflexivity].
  destruct (rev (TranscriptParser.fix_times (s0 :: rest0))) as [|l rest] eqn:E.
  - exfalso; apply Hne; apply (f_equal (@rev _)) in E; rewrite rev_involutive in E; exact E.
  - exists l, rest; split; [reflexivity|]; split; [exact (last_fix_times _ _ _ E)|reflexivity].
Qed.

Lemma parse_text_file_end_times_witness :
  exists r, TranscriptParser.parse_text_file (NL ++ TranscriptParser.sample_import) = Ok r
    /\ Forall (fun s => (TranscriptParser.start_time s + 5 <= 2 ^ 53)%Z)
         (TranscriptParser.segments r)
    /\ TranscriptParser.segments r <> [].
Proof.
  eexists; split; [vm_compute; reflexivity|].
  match goal with |- Forall _ (TranscriptParser.segments ?r) /\ _ =>
    assert (Hb : Forall (fun s => (TranscriptParser.start_time s + 5 <= 2 ^ 53)%Z)
                   (TranscriptParser.segments r))
      by (cbn [TranscriptParser.segments]; repeat (constructor; [simpl; lia|]); constructor);
    split; [exact Hb|];
    exact (proj1 (parse_text_file_end_times (NL ++ TranscriptParser.sample_import) r
                    ltac:(vm_compute; reflexivity) Hb)) end.
Defined.

(** A non-empty string of decimal digits (what [\d+] matches, and what
    [f"{n}"] prints for a natural number). *)
Definition is_number (s : string) : bool :=
  negb (String.eqb s "") && forallb Py.isdigit (list_ascii_of_string s).

Definition speaker_ok (sp : option string) : Prop :=
  forall x, sp = Some x -> exists num, x = "speaker_" ++ num /\ is_number num = true.

Definition seg_ok (s : TranscriptParser.TranscriptSegment) : Prop :=
  TranscriptParser.text s <> "" /\
  (exists num, TranscriptParser.speaker s = "speaker_" ++ num /\ is_number num = true) /\
  (0 <= TranscriptParser.start_time s)%Z.

Lemma digits_all (s : string) :
  forallb Py.isdigit (list_ascii_of_string (fst (Py.digits s))) = true.
Proof.
  induction s as [|c r IH]; [reflexivity|]; simpl.
  destruct (Py.isdigit c) eqn:E; [|reflexivity].
  destruct (Py.digits r) as [d rest]; simpl in *; rewrite E; exact IH.
Qed.

Lemma speaker_match_number (line d : string) :
  TranscriptParser.speaker_match line = Some d -> is_number d = true.
Proof.
  unfold TranscriptParser.speaker_match.
  destruct (String.eqb _ "speaker"); [|discriminate].
  destruct (substring 7 _ line) as [|c r]; [discriminate|].
  destruct (Py.isspace c); [|discriminate].
  pose proof (digits_all (Py.skip_spaces r)) as Hd.
  destruct (Py.digits (Py.skip_spaces r)) as [d0 rest]; simpl in Hd.
  destruct (String.eqb d0 "") eqn:E0; [discriminate|].
  intro H; injection H as <-; unfold is_number; rewrite E0, Hd; reflexivity.
Qed.

Lemma isdigit_last_digit (n : nat) : Py.isdigit (ascii_of_nat (48 + n mod 10)) = true.
Proof.
  pose proof (Nat.mod_upper_bound n 10 ltac:(lia)).
  unfold Py.isdigit; rewrite nat_ascii_embedding by lia.
  apply andb_true_intro; split; apply Nat.leb_le; lia.
Qed.

Lemma show_nat_go_number (fuel n : nat) (acc : string) :
  forallb Py.isdigit (list_ascii_of_string acc) = true ->
  (acc <> "" \/ fuel <> 0) ->
  is_number (Py.show_nat_go fuel n acc) = true.
Proof.
  revert n acc; induction fuel as [|f IH]; intros n acc Hacc Hne.
  - destruct Hne as [Hne|Hne]; [|congruence].
    unfold is_number; cbn [Py.show_nat_go]; rewrite Hacc; destruct acc; [congruence|reflexivity].
  - cbn [Py.show_nat_go].
    assert (Hacc' : forallb Py.isdigit
                      (list_ascii_of_string (String (ascii_of_nat (48 + n mod 10)) acc)) = true)
      by (cbn [list_ascii_of_string forallb]; rewrite isdigit_last_digit; exact Hacc).
    destruct (Nat.ltb n 10).
    + unfold is_number; rewrite Hacc'; reflexivity.
    + apply IH; [exact Hacc' | left; discriminate].
Qed.

Lemma show_nat_number (n : nat) : is_number (Py.show_nat n) = true.
Proof. apply show_nat_go_number; [reflexivity | right; discriminate]. Qed.

Lemma int_go_nonneg (acc : Z) (s : string) : (0 <= acc)%Z -> (0 <= Py.int_go acc s)%Z.
Proof.
  revert acc; induction s as [|c r IH]; intros acc H; cbn [Py.int_go]; [exact H|].
  apply IH; pose proof (Nat2Z.is_nonneg (nat_of_ascii c - 48)); lia.
Qed.

Lemma scan_lines_ok (lines : list string) sp ts tl :
  Forall (fun l => l <> "") tl -> speaker_ok sp ->
  (forall t, ts = Some t -> (0 <= t)%Z) ->
  match TranscriptParser.scan_lines lines sp ts tl with
  | (sp', ts', tl') =>
      Forall (fun l => l <> "") tl' /\ speaker_ok sp' /\ (forall t, ts' = Some t -> (0 <= t)%Z)
  end.
Proof.
  revert sp ts tl; induction lines as [|l0 rest IH]; intros sp ts tl Htl Hsp Hts; simpl.
  { auto. }
  destruct (String.eqb (Py.strip l0) "") eqn:Hb; [apply IH; auto|].
  assert (Hl : Py.strip l0 <> "") by (intro E; rewrite E in Hb; discriminate).
  assert (Happ : Forall (fun l => l <> "") (tl ++ [Py.strip l0]))
    by (apply Forall_app; auto).
  destruct (TranscriptParser.speaker_match (Py.strip l0)) as [num|] eqn:Hsm; destruct sp as [x|].
  2:{ apply IH; auto. intros y Hy; injection Hy as <-; exists num.
      split; [reflexivity | exact (speaker_match_number _ _ Hsm)]. }
  all: destruct (TranscriptParser.timestamp_match (Py.strip l0)) as [[mi se]|];
       destruct ts as [t|]; apply IH; auto.
  all: intros t Ht; injection Ht as <-;
       pose proof (int_go_nonneg 0 mi ltac:(lia)); pose proof (int_go_nonneg 0 se ltac:(lia));
       unfold Py.int; lia.
Qed.

Lemma join_nonempty (sep x : string) (r : list string) :
  x <> "" -> Py.join sep (x :: r) <> "".
Proof. destruct r; simpl; [auto|]. destruct x; [congruence | discriminate]. Qed.

Lemma process_part_ok (idx : nat) (part : string) segs :
  Forall (fun s => seg_ok s /\ (0 <= TranscriptParser.end_time s)%Z) segs ->
  Forall (fun s => seg_ok s /\ (0 <= TranscriptParser.end_time s)%Z)
    (TranscriptParser.process_part idx part segs).
Proof.
  intro H; unfold TranscriptParser.process_part.
  destruct (String.eqb (Py.strip part) ""); [exact H|].
  pose proof (scan_lines_ok (Py.split (Py.strip part) NL) None None []
                (Forall_nil _) ltac:(intros x Hx; discriminate)
                ltac:(intros t Ht; discriminate)) as K.
  destruct (TranscriptParser.scan_lines _ None None []) as [[sp ts] tl].
  destruct K as (Htl & Hsp & Hts).
  destruct tl as [|l1 tl]; [exact H|].
  inversion Htl as [|? ? Hl1 _]; subst.
  assert (Hlast : forall l rest, rev segs = l :: rest -> (0 <= TranscriptParser.end_time l)%Z).
  { intros l rest E. assert (In l segs) as Hin
      by (apply in_rev; rewrite E; left; reflexivity).
    rewrite Forall_forall in H; apply (H l Hin). }
  apply Forall_app; split; [exact H|]; constructor; [|constructor].
  set (t := match ts with Some t => t | None => _ end).
  assert (Ht : (0 <= t)%Z).
  { subst t; destruct ts as [t|]; [apply Hts; reflexivity|].
    destruct (rev segs) as [|l rest] eqn:E; [lia|]. pose proof (Hlast l rest eq_refl); lia. }
  repeat split; simpl; try lia.
  - exact (join_nonempty " " l1 tl Hl1).
  - destruct sp as [x|]; [apply Hsp; reflexivity|].
    eexists; split; [reflexivity | apply show_nat_number].
Qed.

Lemma process_from_ok (idx : nat) parts segs :
  Forall (fun s => seg_ok s /\ (0 <= TranscriptParser.end_time s)%Z) segs ->
  Forall (fun s => seg_ok s /\ (0 <= TranscriptParser.end_time s)%Z)
    (TranscriptParser.process_from idx parts segs).
Proof.
  revert idx segs; induction parts as [|p r IH]; intros idx segs H; simpl;
    [exact H | apply IH, process_part_ok, H].
Qed.

Lemma fix_times_In (segs : list TranscriptParser.TranscriptSegment) s :
  In s (TranscriptParser.fix_times segs) ->
  exists s0, In s0 segs /\ TranscriptParser.speaker s0 = TranscriptParser.speaker s /\
    TranscriptParser.text s0 = TranscriptParser.text s /\
    TranscriptParser.start_time s0 = TranscriptParser.start_time s.
Proof.
  intro Hin.
  apply (in_map (fun s => (TranscriptParser.speaker s, TranscriptParser.text s,
                           TranscriptParser.start_time s))) in Hin.
  rewrite fix_times_keeps in Hin; apply in_map_iff in Hin.
  destruct Hin as (s0 & E & Hs0); injection E; intros; exists s0; auto.
Qed.

(** X3: every segment of a successful parse has a non-empty text, a speaker
    of the form "speaker_<n>" where <n> is a non-empty string of decimal
    digits, and a start time that is not negative. *)
Theorem parse_text_file_segments_ok (content : string) (r : TranscriptParser.TranscriptResult) :
  TranscriptParser.parse_text_file content = Ok r ->
  Forall (fun s =>
            TranscriptParser.text s <> "" /\
            (exists num, TranscriptParser.speaker s = "speaker_" ++ num
                         /\ is_number num = true) /\
            (0 <= TranscriptParser.start_time s)%Z)
    (TranscriptParser.segments r).
Proof.
  unfold TranscriptParser.parse_text_file.
  destruct (String.eqb (Py.strip content) ""); [discriminate|].
  destruct (Nat.ltb _ 2); [discriminate|].
  assert (Hp : Forall (fun s => seg_ok s /\ (0 <= TranscriptParser.end_time s)%Z)
                 (TranscriptParser.process_parts (Py.split content TranscriptParser.S_DELIM))).
  { unfold TranscriptParser.process_parts.
    destruct (Py.split content TranscriptParser.S_DELIM) as [|p0 [|p1 rest]];
      try constructor; apply process_from_ok; constructor. }
  destruct (TranscriptParser.process_parts _) as [|s0 rest0]; [discriminate|].
  intro H; injection H as <-; simpl.
  apply Forall_forall; intros s Hin.
  destruct (fix_times_In _ _ Hin) as (s1 & Hs1 & E1 & E2 & E3).
  rewrite Forall_forall in Hp; destruct (Hp s1 Hs1) as [(Ht & Hsp & Hst) _].
  rewrite <- E1, <- E2, <- E3; auto.
Qed.

Lemma parse_text_file_segments_ok_witness :
  exists r, TranscriptParser.parse_text_file (NL ++ TranscriptParser.sample_import) = Ok r
    /\ Forall (fun s =>
            TranscriptParser.text s <> "" /\
            (exists num, TranscriptParser.speaker s = "speaker_" ++ num
                         /\ is_number num = true) /\
            (0 <= TranscriptParser.start_time s)%Z)
    (TranscriptParser.segments r).
Proof.
  eexists; split; [vm_compute; reflexivity|].
  exact (parse_text_file_segments_ok (NL ++ TranscriptParser.sample_import) _
           ltac:(vm_compute; reflexivity)).
Defined.

(* ------------------------------------------------------------------ *)
(** ** Whisper: the exceptions [transcribe] raises *)

Lemma lower_app (a b : string) : Py.lower (a ++ b) = Py.lower a ++ Py.lower b.
Proof. induction a as [|c r IH]; simpl; [reflexivity | rewrite IH; reflexivity]. Qed.

(** [kw in (prefix + x).lower()] for a literal [prefix]: either the keyword
    occurs in the prefix, or the test falls through to [x]. *)
Ltac contains_prefix :=
  repeat match goal with
  | |- context [Py.contains ?kw (Py.lower ?p ++ ?x)] =>
      first [ change (Py.contains kw (Py.lower p ++ x)) with true
            | change (Py.contains kw (Py.lower p ++ x)) with (Py.contains kw x) ]
  end.

(** Classifying an already classified error again keeps its class. *)
Lemma handle_api_error_stable (e : exn) :
  kind (Whisper.handle_api_error (Whisper.handle_api_error e)) = kind (Whisper.handle_api_error e).
Proof.
  destruct e as [k m].
  unfold Whisper.handle_api_error at 2 3; cbn [message].
  set (l := Py.lower m).
  destruct (Py.contains "authentication" l || Py.contains "api key" l
            || Py.contains "unauthorized" l) eqn:E1;
  [|destruct (Py.contains "rate limit" l || Py.contains "quota" l) eqn:E2;
   [|destruct (Py.contains "timeout" l || Py.contains "connection" l) eqn:E3]];
  cbv beta iota; unfold Whisper.handle_api_error; cbn [message kind]; rewrite lower_app;
  fold l; contains_prefix; try rewrite E1; try rewrite E2; try rewrite E3; reflexivity.
Qed.

Lemma retrying_final_from_attempt {A} (max_attempts : nat) (wait : nat -> Z)
    (cls : exn_kind) (f : nat -> outcome A) (e : exn) (fuel n : nat) :
  Tenacity.final (Tenacity.retrying_go max_attempts wait cls f fuel n) = Raise e ->
  exists k, f k = Raise e.
Proof.
  revert n; induction fuel as [|fuel IH]; intros n H; simpl in H; [exists n; exact H|].
  destruct (f n) as [a|e'] eqn:Hf; [discriminate|].
  destruct (negb _); [injection H as ->; exists n; exact Hf|].
  destruct (Nat.leb _ _); [injection H as ->; exists n; exact Hf | exact (IH _ H)].
Qed.

(** X5: when [WhisperTranscriber.transcribe] fails, it raises an [APIError]
    of the same class as the error the retried call finally raised: the
    second [_handle_api_error] never changes the classification. *)
Theorem whisper_transcribe_error_class (model : string) (file_exists : string -> bool)
    (create : nat -> outcome Whisper.Response) (audio_path : string) (e : exn) :
  Whisper.transcribe model file_exists create audio_path = Raise e ->
  is_instance (kind e) APIError = true
  /\ exists e1, Tenacity.final (Whisper.transcribe_with_retry file_exists create audio_path)
                = Raise e1 /\ kind e = kind e1.
Proof.
  unfold Whisper.transcribe.
  destruct (Tenacity.final _) as [r|e1] eqn:Hf; [discriminate|].
  intro H; injection H as <-.
  split; [apply handle_api_error_is_api_error|].
  exists e1; split; [reflexivity|].
  unfold Whisper.transcribe_with_retry, Tenacity.retrying in Hf.
  destruct (retrying_final_from_attempt _ _ _ _ _ _ _ Hf) as [k Hk].
  unfold Whisper.transcribe_attempt in Hk.
  destruct (file_exists audio_path);
    [destruct (create k); [discriminate|] |]; injection Hk as <-;
    apply handle_api_error_stable.
Qed.

Definition timeout_create (_ : nat) : outcome Whisper.Response :=
  Raise (mkExn Exception "Request timed out: connection reset").

Lemma whisper_transcribe_error_class_witness :
  Whisper.transcribe "whisper-1" (fun _ => true) timeout_create "meeting.m4a"
    = Raise (Whisper.handle_api_error (Whisper.handle_api_error
               (mkExn Exception "Request timed out: connection reset")))
  /\ is_instance APINetworkError APIError = true.
Proof.
  assert (H : Whisper.transcribe "whisper-1" (fun _ => true) timeout_create "meeting.m4a"
    = Raise (Whisper.handle_api_error (Whisper.handle_api_error
               (mkExn Exception "Request timed out: connection reset"))))
    by (vm_compute; reflexivity).
  split; [exact H|].
  destruct (whisper_transcribe_error_class _ _ _ _ _ H) as [Hi _].
  exact Hi.
Defined.

(** X6: when the file exists and every API call fails with a network error
    (timeout or connection), [_transcribe_with_retry] makes exactly 3
    attempts, sleeps 4 s twice, re-raises the third attempt's
    [APINetworkError], and [transcribe] raises an [APINetworkError]. *)
Theorem whisper_network_exhaustion (model : string) (file_exists : string -> bool)
    (create : nat -> outcome Whisper.Response) (audio_path : string) :
  file_exists audio_path = true ->
  (forall n, exists e, create n = Raise e /\
                       kind (Whisper.handle_api_error e) = APINetworkError) ->
  exists e3,
    create 3 = Raise e3
    /\ Whisper.transcribe_with_retry file_exists create audio_path
       = Tenacity.mkTrace (Raise (Whisper.handle_api_error e3)) 3 [4%Z; 4%Z]
    /\ Whisper.transcribe model file_exists create audio_path
       = Raise (Whisper.handle_api_error (Whisper.handle_api_error e3))
    /\ kind (Whisper.handle_api_error (Whisper.handle_api_error e3)) = APINetworkError.
Proof.
  intros Hfe Hc.
  destruct (Hc 1) as (e1 & H1 & K1); destruct (Hc 2) as (e2 & H2 & K2);
    destruct (Hc 3) as (e3 & H3 & K3).
  assert (Ht : Whisper.transcribe_with_retry file_exists create audio_path
               = Tenacity.mkTrace (Raise (Whisper.handle_api_error e3)) 3 [4%Z; 4%Z]).
  { unfold Whisper.transcribe_with_retry, Tenacity.retrying; simpl.
    unfold Whisper.transcribe_attempt; rewrite Hfe, H1, H2, H3, K1, K2, K3; reflexivity. }
  exists e3; split; [exact H3|]; split; [exact Ht|].
  split; [unfold Whisper.transcribe; rewrite Ht; reflexivity|].
  rewrite handle_api_error_stable; exact K3.
Qed.

Lemma whisper_network_exhaustion_witness :
  Whisper.transcribe_with_retry (fun _ => true) timeout_create "meeting.m4a"
  = Tenacity.mkTrace (Raise (Whisper.handle_api_error
      (mkExn Exception "Request timed out: connection reset"))) 3 [4%Z; 4%Z].
Proof.
  assert (Hc : forall n, exists e, timeout_create n = Raise e /\
                                   kind (Whisper.handle_api_error e) = APINetworkError)
    by (intro n; eexists; split; [reflexivity | vm_compute; reflexivity]).
  destruct (whisper_network_exhaustion "whisper-1" (fun _ => true) timeout_create "meeting.m4a"
              eq_refl Hc) as (e3 & H3 & Ht & _).
  injection H3 as <-; exact Ht.
Defined.

(* ------------------------------------------------------------------ *)
(** ** Transcription service: dispatch, configuration and labeling *)

Definition opt_str (o : option string) : string :=
  match o with Some v => v | None => "" end.

Lemma route_make_transcriber_validate (language openai_api_key : string)
    (ivrit_api_key ivrit_endpoint_id : option string) :
  let r := Routing.route language openai_api_key ivrit_api_key ivrit_endpoint_id in
  let use_ivrit := String.eqb language "he" && Routing.truthy ivrit_api_key
                   && Routing.truthy ivrit_endpoint_id in
  Service.make_transcriber (Routing.provider r) (Routing.model r) (Routing.api_key r)
    (Routing.endpoint_id r) (Some language)
  = Ret (if use_ivrit
         then Service.IvritT (opt_str ivrit_api_key) (opt_str ivrit_endpoint_id)
                "ivrit-ai/whisper-large-v3-turbo-ct2" "he"
         else Service.WhisperT openai_api_key "whisper-1" (Some language))
  /\ Service.validate_config
       (if use_ivrit
        then Service.IvritT (opt_str ivrit_api_key) (opt_str ivrit_endpoint_id)
               "ivrit-ai/whisper-large-v3-turbo-ct2" "he"
        else Service.WhisperT openai_api_key "whisper-1" (Some language))
     = (if use_ivrit || negb (String.eqb openai_api_key "") then Ret tt
        else Raise (mkExn ConfigurationError "OpenAI API key is required for Whisper")).
Proof.
  intros r use_ivrit; subst r use_ivrit.
  unfold Routing.route, Routing.get_provider_for_language, Routing.get_model_for_provider,
    Service.make_transcriber, Service.validate_config, Routing.truthy.
  cbn [Routing.assoc_get Routing.LANGUAGE_PROVIDER_MAP fst snd].
  destruct (String.eqb language "he") eqn:Hhe.
  - apply String.eqb_eq in Hhe; subst language.
    destruct ivrit_api_key as [k|], ivrit_endpoint_id as [e|]; cbn;
    repeat match goal with |- context [String.eqb ?a ""] =>
             match a with "" => fail | _ => destruct (String.eqb a "") eqn:? end end;
    cbn; repeat match goal with H : String.eqb _ "" = _ |- _ => rewrite H; clear H end;
    split; reflexivity.
  - destruct (String.eqb language "en"); cbn;
    destruct (String.eqb openai_api_key ""); split; reflexivity.
Qed.

(** X7: the provider, model, key and endpoint that auto-routing hands to
    [transcribe_audio] always pass its dispatch: Hebrew with both Ivrit
    settings gives an Ivrit transcriber for language "he", everything else a
    Whisper transcriber with the OpenAI key and the detected language; the
    configuration check then fails only for Whisper with an empty OpenAI
    key. *)
Theorem auto_route_dispatch (language openai_api_key : string)
    (ivrit_api_key ivrit_endpoint_id : option string) :
  let r := Routing.route language openai_api_key ivrit_api_key ivrit_endpoint_id in
  let use_ivrit := String.eqb language "he" && Routing.truthy ivrit_api_key
                   && Routing.truthy ivrit_endpoint_id in
  exists t,
    Service.make_transcriber (Routing.provider r) (Routing.model r) (Routing.api_key r)
      (Routing.endpoint_id r) (Some language) = Ret t
    /\ t = (if use_ivrit
            then Service.IvritT (opt_str ivrit_api_key) (opt_str ivrit_endpoint_id)
                   "ivrit-ai/whisper-large-v3-turbo-ct2" "he"
            else Service.WhisperT openai_api_key "whisper-1" (Some language))
    /\ Service.validate_config t
       = (if use_ivrit || negb (String.eqb openai_api_key "") then Ret tt
          else Raise (mkExn ConfigurationError "OpenAI API key is required for Whisper")).
Proof.
  intros r use_ivrit.
  destruct (route_make_transcriber_validate language openai_api_key ivrit_api_key
              ivrit_endpoint_id) as [H1 H2].
  eexists; split; [exact H1 | split; [reflexivity | exact H2]].
Qed.

Section ServiceProps.
Import Models.

Lemma label_from_in (participants : list string) (idx : nat) segs :
  participants <> [] ->
  Forall (fun s => In (speaker s) participants)
    (SpeakerLabeler.label_from participants idx segs).
Proof.
  intro Hp; revert idx; induction segs as [|s r IH]; intro idx; simpl; constructor; [|apply IH].
  unfold SpeakerLabeler.speaker_name; destruct participants as [|p ps]; [congruence|]; cbn [speaker].
  apply nth_In, Nat.mod_upper_bound; simpl; lia.
Qed.

(** X8: with a non-empty participant list, every segment of the transcript
    [transcribe_audio] returns is attributed to one of the participants. *)
Theorem transcribe_audio_participants process file_exists openai_create ivrit_load ivrit_run
    (audio_path provider model api_key : string) (participants : list string)
    (endpoint_id language : option string) (r : TranscriptResult) :
  participants <> [] ->
  Service.transcribe_audio process file_exists openai_create ivrit_load ivrit_run
    audio_path provider model api_key participants endpoint_id language = Ret r ->
  Forall (fun s => In (speaker s) participants) (segments r).
Proof.
  intros Hp; unfold Service.transcribe_audio.
  destruct (process audio_path); [|discriminate].
  destruct (Service.make_transcriber _ _ _ _ _); [|discriminate].
  destruct (Service.validate_config _); [|discriminate].
  destruct (Service.run _ _ _ _ _ _); [|discriminate].
  intro H; injection H as <-.
  destruct participants as [|p ps]; [congruence|].
  apply label_from_in; exact Hp.
Qed.
End ServiceProps.

(** X9: [transcribe_audio] re-raises an audio-processing error unchanged;
    after processing, a Whisper provider (any letter case) with an empty key
    raises [ConfigurationError], an Ivrit provider without a truthy endpoint
    raises [ValueError], one with an endpoint but an empty key raises
    [ConfigurationError], and any other provider name raises [ValueError]
    naming it, in each case before any transcription API is called. *)
Theorem transcribe_audio_setup_errors process file_exists openai_create ivrit_load ivrit_run
    (audio_path provider model api_key : string) (participants : list string)
    (endpoint_id language : option string) :
  let ta := Service.transcribe_audio process file_exists openai_create ivrit_load ivrit_run
              audio_path provider model api_key participants endpoint_id language in
  (forall e, process audio_path = Raise e -> ta = Raise e)
  /\ (forall p, process audio_path = Ret p ->
        String.eqb (Py.lower provider) "whisper" = true -> api_key = "" ->
        ta = Raise (mkExn ConfigurationError "OpenAI API key is required for Whisper"))
  /\ (forall p, process audio_path = Ret p ->
        String.eqb (Py.lower provider) "ivrit" = true -> Routing.truthy endpoint_id = false ->
        ta = Raise (mkExn ValueError "endpoint_id is required for Ivrit provider"))
  /\ (forall p, process audio_path = Ret p ->
        String.eqb (Py.lower provider) "ivrit" = true -> Routing.truthy endpoint_id = true ->
        api_key = "" ->
        ta = Raise (mkExn ConfigurationError "Ivrit API key is not configured"))
  /\ (forall p, process audio_path = Ret p ->
        String.eqb (Py.lower provider) "whisper" = false ->
        String.eqb (Py.lower provider) "ivrit" = false ->
        ta = Raise (mkExn ValueError ("Unsupported transcription provider: " ++ provider ++
                                      ". Supported providers: 'whisper', 'ivrit'"))).
Proof.
  intro ta; subst ta; unfold Service.transcribe_audio, Service.make_transcriber.
  repeat split; intros p Hp; rewrite Hp; [reflexivity| ..]; intros.
  - rewrite H; subst api_key; reflexivity.
  - assert (Hw : String.eqb (Py.lower provider) "whisper" = false)
      by (apply String.eqb_eq in H; rewrite H; reflexivity).
    rewrite Hw, H, H0; reflexivity.
  - assert (Hw : String.eqb (Py.lower provider) "whisper" = false)
      by (apply String.eqb_eq in H; rewrite H; reflexivity).
    rewrite Hw, H, H0; subst api_key; reflexivity.
  - rewrite H, H0; reflexivity.
Qed.

Section ServiceMetadata.
Import Models.
Lemma whisper_transcribe_metadata model file_exists create audio_path r :
  Whisper.transcribe model file_exists create audio_path = Ret r ->
  metadata r = [("model", model); ("provider", "whisper")].
Proof.
  unfold Whisper.transcribe; destruct (Tenacity.final _); [|discriminate].
  intro H; injection H as <-; reflexivity.
Qed.

Lemma ivrit_transcribe_metadata model language file_exists load_model model_transcribe
    audio_path r :
  Ivrit.transcribe model language file_exists load_model model_transcribe audio_path = Ret r ->
  metadata r = [("model", model); ("provider", "ivrit"); ("engine", "runpod");
                ("diarization", "True")].
Proof.
  unfold Ivrit.transcribe; destruct (negb _); [discriminate|].
  destruct load_model as [u|e]; [|destruct (_ || _); discriminate].
  destruct (model_transcribe audio_path); [|discriminate].
  intro H; injection H as <-; reflexivity.
Qed.

(** X10: a successful auto-routed transcription returns the language that
    detection found, and its metadata records provider "ivrit" and the
    Ivrit model exactly when that language is "he" and both Ivrit settings
    are set, provider "whisper" and model "whisper-1" otherwise. *)
Theorem auto_routing_provider_recorded process file_exists openai_create ivrit_load ivrit_run
    (audio_path openai_api_key : string) (ivrit_api_key ivrit_endpoint_id : option string)
    (participants : list string) (r : TranscriptResult) (language : string) :
  Service.transcribe_with_auto_routing process file_exists openai_create ivrit_load ivrit_run
    audio_path openai_api_key ivrit_api_key ivrit_endpoint_id participants = Ret (r, language) ->
  let use_ivrit := String.eqb language "he" && Routing.truthy ivrit_api_key
                   && Routing.truthy ivrit_endpoint_id in
  (exists confidence, Service.detect_language process file_exists openai_create
                        audio_path openai_api_key = Ret (language, confidence))
  /\ Routing.assoc_get "provider" (metadata r)
     = Some (if use_ivrit then "ivrit" else "whisper")
  /\ Routing.assoc_get "model" (metadata r)
     = Some (if use_ivrit then "ivrit-ai/whisper-large-v3-turbo-ct2" else "whisper-1").
Proof.
  unfold Service.transcribe_with_auto_routing.
  destruct (Service.detect_language _ _ _ _ _) as [[lang c]|] eqn:Hd; [|discriminate].
  destruct (Service.transcribe_audio _ _ _ _ _ _ _ _ _ _ _ _) as [t|] eqn:Ht; [|discriminate].
  intro H; injection H as <- <-; cbv zeta.
  split; [exists c; reflexivity|].
  unfold Service.transcribe_audio in Ht.
  destruct (process audio_path) as [p|]; [|discriminate].
  rewrite (proj1 (route_make_transcriber_validate lang openai_api_key ivrit_api_key ivrit_endpoint_id)) in Ht.
  destruct (Service.validate_config _); [|discriminate].
  destruct (Service.run _ _ _ _ _ _) as [t0|] eqn:Hr; [|discriminate].
  assert (Hm : metadata t = metadata t0)
    by (injection Ht as <-; destruct participants; reflexivity).
  rewrite Hm; destruct (_ && _ && _); cbn [Service.run] in Hr.
  - rewrite (ivrit_transcribe_metadata _ _ _ _ _ _ _ Hr); split; reflexivity.
  - rewrite (whisper_transcribe_metadata _ _ _ _ _ Hr); split; reflexivity.
Qed.
End ServiceMetadata.

Definition ok_process (p : string) : outcome string := Ret p.
Definition hebrew_reply_create (_ : string) (_ : option string) (_ : nat)
    : outcome Whisper.Response := Ret (Whisper.mkResponse "shalom" (Some "he")).
Definition ivrit_ok_load (_ _ _ : string) : outcome unit := Ret tt.
Definition ivrit_one_segment_run (_ _ _ _ _ : string) : outcome Ivrit.IvritResult :=
  Ret (Ivrit.mkIvritResult [Ivrit.mkIvritSegment ["SPEAKER_00"] " shalom " 0 2] None).

Lemma transcribe_audio_participants_witness :
  exists r,
    Service.transcribe_audio ok_process (fun _ => true) hebrew_reply_create ivrit_ok_load
      ivrit_one_segment_run "meeting.m4a" "whisper" "whisper-1" "sk-test" ["Dana"] None None
    = Ret r
    /\ Forall (fun s => In (Models.speaker s) ["Dana"]) (Models.segments r).
Proof.
  eexists; split; [vm_compute; reflexivity|].
  match goal with |- Forall _ (Models.segments ?r) =>
    refine (transcribe_audio_participants ok_process (fun _ => true) hebrew_reply_create
              ivrit_ok_load ivrit_one_segment_run "meeting.m4a" "whisper" "whisper-1" "sk-test"
              ["Dana"] None None r _ _); [discriminate | vm_compute; reflexivity] end.
Defined.

Lemma transcribe_audio_setup_errors_witness :
  Service.transcribe_audio ok_process (fun _ => true) hebrew_reply_create ivrit_ok_load
    ivrit_one_segment_run "meeting.m4a" "Whisper" "whisper-1" "" [] None None
  = Raise (mkExn ConfigurationError "OpenAI API key is required for Whisper").
Proof.
  destruct (transcribe_audio_setup_errors ok_process (fun _ => true) hebrew_reply_create
              ivrit_ok_load ivrit_one_segment_run "meeting.m4a" "Whisper" "whisper-1" ""
              [] None None) as (_ & H & _).
  exact (H "meeting.m4a" eq_refl ltac:(vm_compute; reflexivity) eq_refl).
Defined.

Lemma auto_routing_provider_recorded_witness :
  exists r,
    Service.transcribe_with_auto_routing ok_process (fun _ => true) hebrew_reply_create
      ivrit_ok_load ivrit_one_segment_run "meeting.m4a" "sk-test" (Some "rpa_key") (Some "ep1") []
    = Ret (r, "he")
    /\ Routing.assoc_get "provider" (Models.metadata r) = Some "ivrit".
Proof.
  eexists; split; [vm_compute; reflexivity|].
  match goal with |- Routing.assoc_get _ (Models.metadata ?r) = _ =>
    refine (proj1 (proj2 (auto_routing_provider_recorded ok_process (fun _ => true)
              hebrew_reply_create ivrit_ok_load ivrit_one_segment_run "meeting.m4a" "sk-test"
              (Some "rpa_key") (Some "ep1") [] r "he" _))); vm_compute; reflexivity end.
Defined.

(** X11: [LanguageDetectionService.detect_and_route] reports confidence 1,
    provider "ivrit" exactly for language "he" and "whisper" otherwise, and
    the provider and model that [TranscriptionService] routes to when both
    Ivrit settings are set. *)
Theorem detect_and_route_consistent file_exists openai_create (openai_api_key audio_path : string)
    language provider model confidence :
  Service.detect_and_route file_exists openai_create openai_api_key audio_path
    = Ret (language, provider, model, confidence) ->
  confidence = 1%Q
  /\ (provider = "ivrit" <-> language = "he")
  /\ (provider = "ivrit" \/ provider = "whisper")
  /\ (forall k e, k <> "" -> e <> "" ->
        Routing.provider (Routing.route language openai_api_key (Some k) (Some e)) = provider
        /\ Routing.model (Routing.route language openai_api_key (Some k) (Some e)) = model).
Proof.
  unfold Service.detect_and_route, Service.whisper_detect_language.
  destruct (Tenacity.final _); [|discriminate].
  intro H; injection H as <- <- <- <-.
  set (l := match Whisper.resp_language a with Some l => l | None => "unknown" end).
  unfold Service.ld_get_provider_for_language, Service.ld_get_model_for_provider,
    Routing.route, Routing.get_provider_for_language, Routing.get_model_for_provider.
  cbn [Routing.assoc_get Service.LD_LANGUAGE_PROVIDER_MAP Routing.LANGUAGE_PROVIDER_MAP fst snd].
  split; [reflexivity|].
  destruct (String.eqb l "he") eqn:Hhe.
  - apply String.eqb_eq in Hhe; rewrite Hhe.
    split; [split; auto|]. split; [left; reflexivity|].
    intros k e Hk He; cbn [Routing.truthy andb negb String.eqb].
    apply String.eqb_neq in Hk, He; rewrite Hk, He; split; reflexivity.
  - destruct (String.eqb l "en"); cbn.
    all: split; [split; [discriminate | intro E; rewrite E in Hhe; discriminate]|].
    all: split; [right; reflexivity|].
    all: intros k e _ _; split; reflexivity.
Qed.

Lemma detect_and_route_consistent_witness :
  Service.detect_and_route (fun _ => true) hebrew_reply_create "sk-test" "meeting.m4a"
    = Ret ("he", "ivrit", "ivrit-ai/whisper-large-v3-turbo-ct2", 1%Q)
  /\ ("ivrit" = "ivrit" <-> "he" = "he").
Proof.
  assert (H : Service.detect_and_route (fun _ => true) hebrew_reply_create "sk-test" "meeting.m4a"
                = Ret ("he", "ivrit", "ivrit-ai/whisper-large-v3-turbo-ct2", 1%Q))
    by (vm_compute; reflexivity).
  split; [exact H | exact (proj1 (proj2 (detect_and_route_consistent _ _ _ _ _ _ _ _ H)))].
Defined.

(* ------------------------------------------------------------------ *)
(** ** Tenacity: the sleeps between attempts *)

Lemma retrying_go_sleeps {A} (max_attempts : nat) (wait : nat -> Z)
    (cls : exn_kind) (f : nat -> outcome A) (fuel n : nat) :
  let t := Tenacity.retrying_go max_attempts wait cls f fuel n in
  n <= Tenacity.attempts t
  /\ Tenacity.sleeps t = map wait (seq n (Tenacity.attempts t - n)).
Proof.
  revert n; induction fuel as [|fuel IH]; intro n; simpl.
  { rewrite Nat.sub_diag; split; [lia | reflexivity]. }
  destruct (f n) as [a|e]; simpl; [rewrite Nat.sub_diag; split; [lia | reflexivity]|].
  destruct (negb (is_instance (kind e) cls)); simpl;
    [rewrite Nat.sub_diag; split; [lia | reflexivity]|].
  destruct (Nat.leb max_attempts n); simpl; [rewrite Nat.sub_diag; split; [lia | reflexivity]|].
  destruct (IH (S n)) as [H1 H2]; split; [lia|].
  rewrite H2; replace (Tenacity.attempts _ - n)
    with (S (Tenacity.attempts (Tenacity.retrying_go max_attempts wait cls f fuel (S n)) - S n))
    by lia.
  reflexivity.
Qed.

(** X12: [_transcribe_with_retry] makes between 1 and 3 attempts and sleeps
    exactly 4 seconds between consecutive attempts, once fewer than it
    attempts: [wait_exponential(multiplier=1, min=4, max=10)] never reaches
    its exponential part. *)
Theorem whisper_retry_sleeps (file_exists : string -> bool)
    (create : nat -> outcome Whisper.Response) (audio_path : string) :
  let t := Whisper.transcribe_with_retry file_exists create audio_path in
  1 <= Tenacity.attempts t <= 3
  /\ Tenacity.sleeps t = repeat 4%Z (Tenacity.attempts t - 1).
Proof.
  intro t; unfold t, Whisper.transcribe_with_retry, Tenacity.retrying.
  pose proof (retrying_attempts_bound 3 (Tenacity.wait_exponential 1 4 10) APINetworkError
                (Whisper.transcribe_attempt file_exists create audio_path) 3 1 ltac:(lia)) as B.
  destruct (retrying_go_sleeps 3 (Tenacity.wait_exponential 1 4 10) APINetworkError
              (Whisper.transcribe_attempt file_exists create audio_path) 3 1) as [H1 H2].
  split; [lia|]. rewrite H2.
  destruct (Tenacity.attempts _) as [|[|[|[|k]]]]; try lia; reflexivity.
Qed.

(* ------------------------------------------------------------------ *)
(** ** Speaker labeling keeps everything but the speakers *)

Section LabelerProps.
Import Models.

Lemma label_from_relabel (p q : list string) (idx : nat) segs :
  SpeakerLabeler.label_from p idx (SpeakerLabeler.label_from q idx segs)
  = SpeakerLabeler.label_from p idx segs.
Proof. revert idx; induction segs as [|s r IH]; intro idx; simpl; [reflexivity | rewrite IH; reflexivity]. Qed.

Lemma label_from_keeps (p : list string) (idx : nat) segs :
  map (fun s => (text s, start_time s, end_time s)) (SpeakerLabeler.label_from p idx segs)
  = map (fun s => (text s, start_time s, end_time s)) segs.
Proof. revert idx; induction segs as [|s r IH]; intro idx; simpl; [reflexivity | rewrite IH; reflexivity]. Qed.

(** X13: [label_speakers] changes only the speakers: the segments keep their
    order, texts and times, the language and metadata are unchanged, and
    labeling an already labeled transcript gives the same result as
    labeling the original. *)
Theorem label_speakers_only_speakers (participants others : list string) (t : TranscriptResult) :
  let t' := SpeakerLabeler.label_speakers participants t in
  map (fun s => (text s, start_time s, end_time s)) (segments t')
    = map (fun s => (text s, start_time s, end_time s)) (segments t)
  /\ language t' = language t /\ metadata t' = metadata t
  /\ SpeakerLabeler.label_speakers participants (SpeakerLabeler.label_speakers others t) = t'.
Proof.
  intro t'; unfold t', SpeakerLabeler.label_speakers; simpl.
  rewrite label_from_keeps, label_from_relabel; repeat split; reflexivity.
Qed.

End LabelerProps.

(* ------------------------------------------------------------------ *)
(** ** Ivrit: the exceptions [transcribe] raises *)

(** X14: [IvritTranscriber.transcribe] raises [ValueError] exactly when the
    audio file is missing; otherwise it raises a [TranscriberError]:
    [ConfigurationError] only when loading the model failed, or an
    authentication or generic [APIError], never a network or rate-limit
    error (Ivrit has no retry). *)
Theorem ivrit_transcribe_errors (model language : string) (file_exists : string -> bool)
    (load_model : outcome unit) (model_transcribe : string -> outcome Ivrit.IvritResult)
    (audio_path : string) (e : exn) :
  Ivrit.transcribe model language file_exists load_model model_transcribe audio_path = Raise e ->
  (kind e = ValueError <-> file_exists audio_path = false)
  /\ (kind e = ValueError \/ is_instance (kind e) TranscriberError = true)
  /\ (kind e = ConfigurationError -> exists e0, load_model = Raise e0)
  /\ kind e <> APINetworkError /\ kind e <> APIRateLimitError /\ kind e <> AudioFileError.
Proof.
  unfold Ivrit.transcribe.
  destruct (file_exists audio_path); simpl.
  2: { intro H; injection H as <-; simpl; repeat split; auto; discriminate. }
  destruct load_model as [u|e0].
  - destruct (model_transcribe audio_path); [discriminate|].
    intro H; injection H as <-; unfold Ivrit.ivrit_error.
    destruct (_ || _); simpl; repeat split; auto; discriminate.
  - intro H; destruct (_ || _); injection H as <-; simpl; repeat split; eauto; discriminate.
Qed.

Definition timeout_ivrit_run (_ : string) : outcome Ivrit.IvritResult :=
  Raise (mkExn Exception "RunPod request timeout").

Lemma ivrit_transcribe_errors_witness :
  Ivrit.transcribe "ivrit-ai/whisper-large-v3-turbo-ct2" "he" (fun _ => true) (Ret tt)
    timeout_ivrit_run "meeting.m4a"
    = Raise (mkExn APIError "Ivrit transcription failed: RunPod request timeout")
  /\ APIError <> APINetworkError.
Proof.
  assert (H : Ivrit.transcribe "ivrit-ai/whisper-large-v3-turbo-ct2" "he" (fun _ => true) (Ret tt)
                timeout_ivrit_run "meeting.m4a"
              = Raise (mkExn APIError "Ivrit transcription failed: RunPod request timeout"))
    by (vm_compute; reflexivity).
  split; [exact H|].
  exact (proj1 (proj2 (proj2 (proj2 (ivrit_transcribe_errors _ _ _ _ _ _ _ H))))).
Defined.

(* ------------------------------------------------------------------ *)
(** ** Summarizer: what [generate_summary] returns and raises *)

Lemma api_failure_kind {A} (e e' : exn) :
  Summarizer.api_failure (A := A) e = Raise e' ->
  (kind e' = APIAuthenticationError
   /\ message e' = "OpenAI API authentication failed: " ++ message e)
  \/ (kind e' = APIError /\ message e' = "Summary generation error: " ++ message e).
Proof.
  unfold Summarizer.api_failure; destruct (_ || _); intro H; injection H as <-; simpl; auto.
Qed.

Lemma api_failure_not_ret {A} (e : exn) (a : A) : Summarizer.api_failure e <> Ret a.
Proof. unfold Summarizer.api_failure; destruct (_ || _); discriminate. Qed.

(** X15: a summary returned by [generate_summary] always lists exactly the
    participants it was given, whatever the model replied. *)
Theorem generate_summary_keeps_participants
    (json_loads : string -> Summarizer.loads_result)
    (chat_completion : string -> string -> list string -> outcome (option string))
    (transcript : Models.TranscriptResult) (context : string)
    (participants : list string) (s : Summarizer.Summary) :
  Summarizer.generate_summary json_loads chat_completion transcript context participants = Ret s ->
  Summarizer.participants s = participants.
Proof.
  unfold Summarizer.generate_summary.
  destruct (chat_completion _ _ _) as [[content|]|e]; try (intro H; exfalso; exact (api_failure_not_ret _ _ H)).
  destruct (json_loads content) as [d|msg|e];
    [| intro H; injection H as <-; reflexivity
     | intro H; exfalso; exact (api_failure_not_ret _ _ H)].
  destruct (Summarizer.get d "action_items" (Summarizer.JArr [])) as [ai|]; [|(intro H; exfalso; exact (api_failure_not_ret _ _ H))].
  destruct (Summarizer.iter ai) as [items|]; [|(intro H; exfalso; exact (api_failure_not_ret _ _ H))].
  destruct (Summarizer.action_items_of items), (Summarizer.get d "overview" (Summarizer.JStr "")),
    (Summarizer.get d "key_points" (Summarizer.JArr [])); try (intro H; exfalso; exact (api_failure_not_ret _ _ H)).
  destruct (Summarizer.has_len _); [intro H; injection H as <-; reflexivity|].
  (intro H; exfalso; exact (api_failure_not_ret _ _ H)).
Qed.

Definition empty_object_loads (_ : string) : Summarizer.loads_result :=
  Summarizer.Loaded (Summarizer.JObj []).
Definition braces_reply (_ _ : string) (_ : list string) : outcome (option string) :=
  Ret (Some "{}").

Lemma generate_summary_keeps_participants_witness :
  exists s,
    Summarizer.generate_summary empty_object_loads braces_reply
      (Models.mkResult [] "en" []) "standup" ["Dana"; "Omer"] = Ret s
    /\ Summarizer.participants s = ["Dana"; "Omer"].
Proof.
  eexists; split; [vm_compute; reflexivity|].
  match goal with |- Summarizer.participants ?s = _ =>
    exact (generate_summary_keeps_participants empty_object_loads braces_reply
             (Models.mkResult [] "en" []) "standup" ["Dana"; "Omer"] s
             ltac:(vm_compute; reflexivity)) end.
Defined.

(** X16: [generate_summary] raises only [APIAuthenticationError] (message
    "OpenAI API authentication failed: ...") or a plain [APIError] (message
    "Summary generation error: ..."), whatever went wrong: the request, a
    null reply content, an exception of [json.loads] other than
    [JSONDecodeError], or JSON of the wrong shape. *)
Theorem generate_summary_errors
    (json_loads : string -> Summarizer.loads_result)
    (chat_completion : string -> string -> list string -> outcome (option string))
    (transcript : Models.TranscriptResult) (context : string)
    (participants : list string) (e : exn) :
  Summarizer.generate_summary json_loads chat_completion transcript context participants
    = Raise e ->
  exists e0,
    (kind e = APIAuthenticationError
     /\ message e = "OpenAI API authentication failed: " ++ message e0)
    \/ (kind e = APIError /\ message e = "Summary generation error: " ++ message e0).
Proof.
  unfold Summarizer.generate_summary.
  destruct (chat_completion _ _ _) as [[content|]|e0];
    try (intro H; eexists; exact (api_failure_kind _ _ H)).
  destruct (json_loads content) as [d|msg|e0];
    [| discriminate | intro H; eexists; exact (api_failure_kind _ _ H)].
  destruct (Summarizer.get d "action_items" (Summarizer.JArr [])) as [ai|];
    [|intro H; eexists; exact (api_failure_kind _ _ H)].
  destruct (Summarizer.iter ai) as [items|]; [|intro H; eexists; exact (api_failure_kind _ _ H)].
  destruct (Summarizer.action_items_of items), (Summarizer.get d "overview" (Summarizer.JStr "")),
    (Summarizer.get d "key_points" (Summarizer.JArr [])); try (intro H; eexists; exact (api_failure_kind _ _ H)).
  destruct (Summarizer.has_len _); [discriminate|].
  intro H; eexists; exact (api_failure_kind _ _ H).
Qed.

Definition null_reply (_ _ : string) (_ : list string) : outcome (option string) := Ret None.

Lemma generate_summary_errors_witness :
  Summarizer.generate_summary empty_object_loads null_reply (Models.mkResult [] "en" [])
    "standup" [] = Raise (mkExn APIError ("Summary generation error: " ++
       "the JSON object must be str, bytes or bytearray, not NoneType"))
  /\ exists e0, (APIError = APIAuthenticationError /\
                 ("Summary generation error: " ++
                  "the JSON object must be str, bytes or bytearray, not NoneType")
                 = "OpenAI API authentication failed: " ++ message e0)
               \/ (APIError = APIError /\
                   ("Summary generation error: " ++
                    "the JSON object must be str, bytes or bytearray, not NoneType")
                   = "Summary generation error: " ++ message e0).
Proof.
  assert (H : Summarizer.generate_summary empty_object_loads null_reply
                (Models.mkResult [] "en" []) "standup" []
              = Raise (mkExn APIError ("Summary generation error: " ++
                  "the JSON object must be str, bytes or bytearray, not NoneType")))
    by (vm_compute; reflexivity).
  split; [exact H | exact (generate_summary_errors _ _ _ _ _ _ H)].
Defined.

(** X17: when the reply is a JSON object without the "overview",
    "key_points" and "action_items" keys, [generate_summary] returns an empty
    overview, no key points and no action items. *)
Theorem generate_summary_missing_keys
    (json_loads : string -> Summarizer.loads_result)
    (chat_completion : string -> string -> list string -> outcome (option string))
    (transcript : Models.TranscriptResult) (context : string)
    (participants : list string) (content : string) (kvs : list (string * Summarizer.json)) :
  chat_completion (Summarizer.format_transcript transcript) context participants
    = Ret (Some content) ->
  json_loads content = Summarizer.Loaded (Summarizer.JObj kvs) ->
  Forall (fun kv => fst kv <> "overview" /\ fst kv <> "key_points" /\ fst kv <> "action_items")
    kvs ->
  Summarizer.generate_summary json_loads chat_completion transcript context participants
  = Ret (Summarizer.mkSummary (Summarizer.JStr "") (Summarizer.JArr []) [] participants).
Proof.
  intros Hc Hj Hk; unfold Summarizer.generate_summary; rewrite Hc, Hj.
  assert (Hf : forall key, key = "overview" \/ key = "key_points" \/ key = "action_items" ->
            find (fun kv => String.eqb (fst kv) key) (rev kvs) = None).
  { intros key Hkey; apply Forall_rev in Hk.
    induction (rev kvs) as [|[k v] r IH]; [reflexivity|]; simpl.
    inversion Hk as [|? ? (H1 & H2 & H3) Hr]; subst.
    destruct (String.eqb_spec k key) as [->|_]; [simpl in *; intuition congruence|].
    exact (IH Hr). }
  unfold Summarizer.get.
  rewrite (Hf "action_items"), (Hf "overview"), (Hf "key_points"); auto.
Qed.

Definition notes_loads (_ : string) : Summarizer.loads_result :=
  Summarizer.Loaded (Summarizer.JObj [("notes", Summarizer.JNum 1)]).

Lemma generate_summary_missing_keys_witness :
  Summarizer.generate_summary notes_loads braces_reply (Models.mkResult [] "en" []) "standup"
    ["Dana"]
  = Ret (Summarizer.mkSummary (Summarizer.JStr "") (Summarizer.JArr []) [] ["Dana"]).
Proof.
  apply (generate_summary_missing_keys notes_loads braces_reply (Models.mkResult [] "en" [])
           "standup" ["Dana"] "{}" [("notes", Summarizer.JNum 1)]); [reflexivity | reflexivity|].
  repeat constructor; discriminate.
Defined.

(* ------------------------------------------------------------------ *)
(** ** Entity grouping: the types of the result *)

Section EntityTypes.
Import EntityExtraction.

Lemma dict_set_new {V} (k : string) (v : V) (d : dict V) :
  dict_get k d = None -> dict_set k v d = (d ++ [(k, v)])%list.
Proof.
  induction d as [|[k0 v0] r IH]; simpl; [reflexivity|].
  destruct (String.eqb k k0); [discriminate|]; intro H; rewrite (IH H); reflexivity.
Qed.

Lemma dict_set_last {V} (k : string) (v w : V) (d : dict V) :
  dict_get k d = None -> dict_set k v (d ++ [(k, w)])%list = (d ++ [(k, v)])%list.
Proof.
  induction d as [|[k0 v0] r IH]; simpl; [rewrite String.eqb_refl; reflexivity|].
  destruct (String.eqb k k0); [discriminate|]; intro H; rewrite (IH H); reflexivity.
Qed.

Lemma dict_get_last {V} (k : string) (v : V) (d : dict V) :
  dict_get k d = None -> dict_get k (d ++ [(k, v)])%list = Some v.
Proof.
  induction d as [|[k0 v0] r IH]; simpl; [rewrite String.eqb_refl; reflexivity|].
  destruct (String.eqb k k0); [discriminate | exact IH].
Qed.

Lemma dict_set_keys_old {V} (k : string) (v w : V) (d : dict V) :
  dict_get k d = Some w -> map fst (dict_set k v d) = map fst d.
Proof.
  induction d as [|[k0 v0] r IH]; simpl; [discriminate|].
  destruct (String.eqb k k0) eqn:E; [reflexivity|]; intro H; simpl; rewrite (IH H); reflexivity.
Qed.

Lemma dict_set_nonempty {V} (k : string) (v : V) (d : dict V) : dict_set k v d <> [].
Proof. destruct d as [|[k0 v0] r]; simpl; [discriminate|]; destruct (String.eqb k k0); discriminate. Qed.

(** The invariant of the grouping loop after the entities [seen]. *)
Definition types_ok (seen : list ExtractedEntity) (g : dict (dict ExtractedEntity)) : Prop :=
  NoDup (map fst g)
  /\ (forall t d, In (t, d) g ->
        d <> [] /\ forall k x, In (k, x) d -> etype x = t /\ In x seen)
  /\ (forall t, In t (map fst g) <-> exists e, In e seen /\ etype e = t).

Lemma group_step_types (seen : list ExtractedEntity) (g : dict (dict ExtractedEntity))
    (e : ExtractedEntity) :
  types_ok seen g -> types_ok (seen ++ [e])%list (group_step g e).
Proof.
  intros (Hn & Hd & Ht).
  assert (Hseen : forall x, In x seen -> In x (seen ++ [e])%list)
    by (intros; apply in_or_app; auto).
  assert (He : In e (seen ++ [e])%list) by (apply in_or_app; right; left; reflexivity).
  assert (Ht' : forall t, (exists x, In x (seen ++ [e])%list /\ etype x = t)
                          <-> (exists x, In x seen /\ etype x = t) \/ t = etype e).
  { intro t; split.
    - intros (x & Hx & <-); apply in_app_or in Hx as [Hx|[<-|[]]]; [left; eauto | right; auto].
    - intros [(x & Hx & <-)| ->]; eauto. }
  unfold group_step, dict_contains.
  destruct (dict_get (etype e) g) as [d|] eqn:Eg.
  - (* the type is already grouped *)
    assert (Hk : In (etype e) (map fst g))
      by exact (in_map fst _ _ (dict_get_In _ _ _ Eg)).
    rewrite Eg.
    assert (Hkeys : forall t, In t (map fst g) <-> exists x, In x (seen ++ [e])%list /\ etype x = t).
    { intro t; rewrite Ht', <- Ht; split; [auto|]; intros [H| ->]; auto. }
    destruct (dict_get (normalized_form e) d) eqn:Ek.
    + split; [exact Hn|]; split; [|exact Hkeys].
      intros t d' H; destruct (Hd t d' H) as [H1 H2]; split; [exact H1|].
      intros k x Hx; destruct (H2 k x Hx); auto.
    + split; [rewrite (dict_set_keys_old _ _ _ _ Eg); exact Hn|].
      split; [|intro t; rewrite (dict_set_keys_old _ _ _ _ Eg); apply Hkeys].
      intros t d' H; apply dict_set_In in H as [[-> ->]|H].
      * split; [apply dict_set_nonempty|].
        intros k x Hx; apply dict_set_In in Hx as [[-> ->]|Hx]; [auto|].
        destruct (Hd _ _ (dict_get_In _ _ _ Eg)) as [_ H2]; destruct (H2 k x Hx); auto.
      * destruct (Hd t d' H) as [H1 H2]; split; [exact H1|].
        intros k x Hx; destruct (H2 k x Hx); auto.
  - (* a new type: it goes last, with the entity as its only member *)
    cbv beta iota zeta; rewrite (dict_set_new _ _ _ Eg).
    rewrite (dict_get_last _ _ _ Eg); simpl; rewrite (dict_set_last _ _ _ _ Eg).
    split; [rewrite map_app; apply NoDup_snoc; [exact Hn | apply dict_get_None, Eg]|].
    split.
    + intros t d' H; apply in_app_or in H as [H|[H|[]]].
      * destruct (Hd t d' H) as [H1 H2]; split; [exact H1|].
        intros k x Hx; destruct (H2 k x Hx); auto.
      * injection H as <- <-; split; [discriminate|].
        intros k x [Hx|[]]; injection Hx as <- <-; auto.
    + intro t; rewrite Ht', map_app, in_app_iff, <- Ht; simpl.
      split; intros [H|H]; auto.
      destruct H as [<-|[]]; auto.
Qed.

Lemma fold_group_types (es seen : list ExtractedEntity) (g : dict (dict ExtractedEntity)) :
  types_ok seen g -> types_ok (seen ++ es)%list (fold_left group_step es g).
Proof.
  revert seen g; induction es as [|e r IH]; intros seen g H; simpl.
  - rewrite app_nil_r; exact H.
  - replace (seen ++ e :: r)%list with ((seen ++ [e]) ++ r)%list
      by (rewrite <- app_assoc; reflexivity).
    apply IH, group_step_types, H.
Qed.

(** X18: the result of [extract_and_deduplicate] has one entry per entity
    type that occurs in the input and no other; no entry is empty, and every
    entity listed under a type is an input entity of that type. *)
Theorem extract_and_deduplicate_types (es : list ExtractedEntity) :
  let result := extract_and_deduplicate es in
  NoDup (map fst result)
  /\ (forall t, In t (map fst result) <-> exists e, In e es /\ etype e = t)
  /\ (forall t l, In (t, l) result ->
        l <> [] /\ forall x, In x l -> In x es /\ etype x = t).
Proof.
  intro result.
  assert (H0 : types_ok [] []).
  { split; [constructor|]; split; [intros _ _ []|].
    intro t; split; [intros []| intros (e & [] & _)]. }
  destruct (fold_group_types es [] [] H0) as (Hn & Hd & Ht); simpl in Hd, Ht.
  assert (Hk : map fst result = map fst (fold_left group_step es [])).
  { unfold result, extract_and_deduplicate; rewrite map_map; reflexivity. }
  split; [rewrite Hk; exact Hn|]. split; [intro t; rewrite Hk; apply Ht|].
  intros t l H; unfold result, extract_and_deduplicate in H.
  apply in_map_iff in H as [[t' d] [Heq Hin]]; injection Heq as <- <-.
  destruct (Hd t' d Hin) as [H1 H2]; split.
  - destruct d; [contradiction | discriminate].
  - intros x Hx; apply in_map_iff in Hx as [[k x'] [<- Hx]].
    destruct (H2 k x' Hx); auto.
Qed.

End EntityTypes.

(* ------------------------------------------------------------------ *)
(** ** Reply clean-up of [extract_entities] *)

Lemma split_go_nonnil f sep s cur : Py.split_go f sep s cur <> [].
Proof.
  revert s cur; induction f as [|f IH]; intros s cur; simpl; [discriminate|].
  destruct s as [|c r]; [discriminate|].
  destruct (String.prefix sep (String c r)); [discriminate|apply IH].
Qed.

Lemma split_go_at_sep f sep c r cur :
  String.prefix sep (String c r) = true ->
  Py.split_go (S f) sep (String c r) cur
  = cur :: Py.split_go f sep (substring (String.length sep)
                                (String.length (String c r)) (String c r)) "".
Proof. intros H. cbn [Py.split_go]. rewrite H. reflexivity. Qed.

Lemma substring_all t m : String.length t <= m -> substring 0 m t = t.
Proof.
  revert m; induction t as [|c t IH]; intros m Hm; destruct m; simpl in *; try lia; auto.
  rewrite IH by lia. reflexivity.
Qed.

Lemma substring_after p t m : substring (String.length p) m (p ++ t) = substring 0 m t.
Proof. induction p as [|c p IH]; [reflexivity|exact IH]. Qed.

Lemma list_ascii_app a b :
  list_ascii_of_string (a ++ b) = (list_ascii_of_string a ++ list_ascii_of_string b)%list.
Proof. induction a; simpl; congruence. Qed.

Lemma rstrip_last t c : Py.isspace c = false -> Py.rstrip (t ++ String c "") = t ++ String c "".
Proof.
  intros Hc. unfold Py.rstrip.
  rewrite list_ascii_app, rev_app_distr. cbn [list_ascii_of_string rev app string_of_list_ascii Py.lstrip].
  rewrite Hc. cbn [list_ascii_of_string]. rewrite list_ascii_of_string_of_list_ascii. cbn [rev]. rewrite rev_involutive.
  change [c] with (list_ascii_of_string (String c "")).
  rewrite <- list_ascii_app. apply string_of_list_ascii_of_string.
Qed.

Lemma split_go_skip f x y cur :
  Py.contains "`" x = false -> String.length x < f ->
  Py.split_go f "```" (x ++ y) cur = Py.split_go (f - String.length x) "```" y (cur ++ x).
Proof.
  revert f cur; induction x as [|c x IH]; intros f cur Hx Hf.
  - rewrite string_app_empty_r, Nat.sub_0_r. reflexivity.
  - destruct f as [|f]; [simpl in Hf; lia|].
    change (Py.contains "`" (String c x))
      with (if String.prefix "`" (String c x) then true else Py.contains "`" x) in Hx.
    cbn [String.prefix] in Hx.
    destruct (ascii_dec "`"%char c) as [He|Hne].
    { replace (String.prefix "" x) with true in Hx by (destruct x; reflexivity). discriminate. }
    cbn [Py.split_go append].
    cbn [String.prefix]. destruct (ascii_dec "`"%char c) as [He|_]; [congruence|].
    rewrite IH by (simpl in Hf; auto; lia).
    rewrite string_app_assoc. reflexivity.
Qed.

Lemma length_app a b : String.length (a ++ b) = String.length a + String.length b.
Proof. induction a; simpl; congruence. Qed.

Lemma prefix_app p t : String.prefix p (p ++ t) = true.
Proof.
  induction p as [|c p IH]; [destruct t; reflexivity|].
  cbn [append String.prefix]. destruct (ascii_dec c c); [exact IH|congruence].
Qed.

Lemma split_go_sep_app f sep t cur :
  sep <> "" ->
  Py.split_go (S f) sep (sep ++ t) cur = cur :: Py.split_go f sep t "".
Proof.
  intros Hsep. destruct sep as [|c r]; [congruence|].
  change (String c r ++ t) with (String c (r ++ t)).
  rewrite (split_go_at_sep f (String c r) c (r ++ t) cur (prefix_app (String c r) t)).
  change (String c (r ++ t)) with (String c r ++ t).
  rewrite substring_after, substring_all; [reflexivity|]. rewrite length_app; lia.
Qed.

(** X19: the reply clean-up of [extract_entities] never raises: when the
    stripped reply opens with a code fence, [split("```")] has at least two
    pieces, so the index [[1]] always exists. *)
Lemma clean_reply_never_raises content : exists r, EntityReply.clean_reply content = Ret r.
Proof.
  unfold EntityReply.clean_reply.
  generalize (Py.strip content) as c; intro c.
  destruct (String.prefix "```" c) eqn:Hp; [|eauto].
  destruct c as [|a r]; [discriminate|].
  unfold Py.split. rewrite (split_go_at_sep _ _ _ _ _ Hp).
  destruct (Py.split_go _ _ _ _) as [|x l] eqn:E; [exfalso; exact (split_go_nonnil _ _ _ _ E)|].
  cbn [nth_error]. eauto.
Qed.

(** X20: a reply that is a fenced [json] block, [```json<body>```], with no
    backquote in the body, is cleaned to the body stripped of surrounding
    whitespace, the text then handed to [json.loads]. *)
Lemma clean_reply_fenced body :
  Py.contains "`" body = false ->
  EntityReply.clean_reply ("```json" ++ body ++ "```") = Ret (Py.strip body).
Proof.
  intros Hb. unfold EntityReply.clean_reply.
  assert (Hs : Py.strip ("```json" ++ body ++ "```") = "```json" ++ body ++ "```").
  { unfold Py.strip. change (Py.lstrip ("```json" ++ body ++ "```")) with ("```json" ++ body ++ "```").
    replace ("```json" ++ body ++ "```") with (("```json" ++ body ++ "``") ++ "`")
      by (rewrite !string_app_assoc; reflexivity).
    apply rstrip_last; reflexivity. }
  rewrite Hs. change (String.prefix "```" ("```json" ++ body ++ "```")) with true.
  cbv iota.
  unfold Py.split.
  change ("```json" ++ body ++ "```") with ("```" ++ (("json" ++ body) ++ "```")).
  rewrite split_go_sep_app by discriminate.
  rewrite split_go_skip.
  2:{ exact Hb. }
  2:{ rewrite !length_app. simpl. lia. }
  replace (String.length ("```" ++ ("json" ++ body) ++ "```") - String.length ("json" ++ body))
    with 6.
  2:{ rewrite !length_app. change (String.length "```") with 3.
       change (String.length "json") with 4. lia. }
  change (Py.split_go 6 "```" "```" ("" ++ "json" ++ body)) with ["json" ++ body; ""].
  cbn [nth_error].
  rewrite prefix_app.
  assert (Hj : substring 4 (String.length ("json" ++ body)) ("json" ++ body) = body).
  { rewrite (substring_after "json" body). apply substring_all.
    rewrite length_app. simpl. lia. }
  rewrite Hj. reflexivity.
Qed.

Lemma clean_reply_fenced_witness :
  Py.contains "`" (NL ++ "[]" ++ NL) = false
  /\ EntityReply.clean_reply ("```json" ++ (NL ++ "[]" ++ NL) ++ "```")
     = Ret (Py.strip (NL ++ "[]" ++ NL)).
Proof.
  assert (H : Py.contains "`" (NL ++ "[]" ++ NL) = false) by reflexivity.
  split; [exact H | exact (clean_reply_fenced _ H)].
Defined.
